(** * Silver breakout analysis: a shallow embedding of
      [silver_breakout_analysis.py] and the properties of its detection,
      outcome and aggregation code.

    Prices are Python floats in the source; a finite float is a rational,
    so they are values of [Q] here, with [None] standing for a missing
    value (pandas [NaN] / Python [None]).  The daily return, which the
    threshold test reads, is computed as numpy computes it, each operation
    rounded to binary64 ([float64]); comparisons of floats are exact.  The
    figures that no test of the code reads (future return, means and the
    like) are idealised as exact rationals.  Prices are positive in every
    series the provider supplies, so no division of the source sees a zero
    divisor.  Positions, [hold_days] and [future_days] are natural
    numbers. *)

From Stdlib Require Import QArith ZArith List Bool Arith Lia Sorted.
From Stdlib Require String.
Import ListNotations.

Open Scope Q_scope.

(** ** The fragment of pandas the analyzer relies on *)

Module Pandas.

(** A float cell of a column: [None] is [NaN]. *)
Definition cell := option Q.

(** [a < b] on floats. *)
Definition Qltb (a b : Q) : bool := negb (Qle_bool b a).

(** Numerator and denominator of [a / d / 2^e]. *)
Definition scaled (a d e : Z) : Z * Z :=
  if (0 <=? e)%Z then (a, d * 2 ^ e)%Z else (a * 2 ^ (- e), d)%Z.

(** The integer nearest to [x / y], the even one of two equally near. *)
Definition nearest_even (x y : Z) : Z :=
  let m := (x / y)%Z in
  let r := (x mod y)%Z in
  if (2 * r <? y)%Z then m
  else if (y <? 2 * r)%Z then (m + 1)%Z
  else if Z.even m then m else (m + 1)%Z.

(** The result of a float operation whose exact result is [q]: the
    binary64 number nearest to [q] (53 significant bits, ties to even).
    Magnitudes are taken to be in the normal range of the format, as the
    prices and returns of a series are. *)
Definition float64 (q : Q) : Q :=
  let n := Qnum q in
  let d := Zpos (Qden q) in
  if (n =? 0)%Z then 0
  else
    let a := Z.abs n in
    let e0 := (Z.log2 a - Z.log2 d - 52)%Z in
    let e := if (fst (scaled a d e0) <? 2 ^ 52 * snd (scaled a d e0))%Z
             then (e0 - 1)%Z else e0 in
    let m := nearest_even (fst (scaled a d e)) (snd (scaled a d e)) in
    let v := if (0 <=? e)%Z then inject_Z (m * 2 ^ e)
             else Qred (m # Z.to_pos (2 ^ (- e))) in
    if (n <? 0)%Z then - v else v.

(** [Series.pct_change()]: [data / data.shift(1) - 1], a float division
    and a float subtraction; the first entry has no predecessor and is
    [NaN]. *)
Fixpoint pct_from (prev : Q) (cs : list Q) : list cell :=
  match cs with
  | [] => []
  | c :: cs' => Some (float64 (float64 (c / prev) - 1)) :: pct_from c cs'
  end.

Definition pct_change (cs : list Q) : list cell :=
  match cs with
  | [] => []
  | c :: cs' => None :: pct_from c cs'
  end.

(** [series * k], a float multiplication *)
Definition scale (k : Q) (col : list cell) : list cell :=
  map (option_map (fun r => float64 (r * k))) col.

(** Positions of label [d] in an index, counted from [k]. *)
Fixpoint positions (d : Z) (ds : list Z) (k : nat) : list nat :=
  match ds with
  | [] => []
  | x :: ds' =>
      if Z.eqb x d then k :: positions d ds' (S k) else positions d ds' (S k)
  end.

(** [Index.get_loc(d)]: the integer position of a label that occurs once.
    An absent label raises [KeyError]; for a repeated label pandas hands
    back a slice or a mask, on which the integer arithmetic and the
    tests of the caller raise.  Both are the error [None] here. *)
Definition get_loc (ds : list Z) (d : Z) : option nat :=
  match positions d ds 0 with
  | [p] => Some p
  | _ => None
  end.

(** Skip the missing values of a column ([skipna=True]). *)
Fixpoint dropna (col : list cell) : list Q :=
  match col with
  | [] => []
  | Some x :: col' => x :: dropna col'
  | None :: col' => dropna col'
  end.

Definition Qsum (xs : list Q) : Q := fold_right Qplus 0 xs.

Definition of_nat (n : nat) : Q := inject_Z (Z.of_nat n).

(** [Series.mean()]: mean of the values present, [NaN] when there are none. *)
Definition mean (col : list cell) : cell :=
  match dropna col with
  | [] => None
  | xs => Some (Qsum xs / of_nat (length xs))
  end.

Definition Qmin' (a b : Q) : Q := if Qle_bool a b then a else b.
Definition Qmax' (a b : Q) : Q := if Qle_bool a b then b else a.

(** [Series.min()] and [Series.max()] *)
Definition min (col : list cell) : cell :=
  match dropna col with
  | [] => None
  | x :: xs => Some (fold_left Qmin' xs x)
  end.

Definition max (col : list cell) : cell :=
  match dropna col with
  | [] => None
  | x :: xs => Some (fold_left Qmax' xs x)
  end.

Fixpoint insert_sorted (x : Q) (xs : list Q) : list Q :=
  match xs with
  | [] => [x]
  | y :: ys => if Qle_bool x y then x :: xs else y :: insert_sorted x ys
  end.

Definition sort (xs : list Q) : list Q := fold_right insert_sorted [] xs.

(** [Series.median()]: the middle of the sorted values present, the mean
    of the two middle ones when their number is even. *)
Definition median (col : list cell) : cell :=
  let xs := sort (dropna col) in
  let n := length xs in
  match n with
  | O => None
  | _ =>
      if Nat.even n
      then Some ((nth (n / 2 - 1) xs 0 + nth (n / 2) xs 0) / 2)
      else Some (nth (n / 2) xs 0)
  end.

(** The square of [Series.std()] (sample variance, [ddof=1]); the square
    root itself is not rational.  [NaN] below two values. *)
Definition std_sq (col : list cell) : cell :=
  match dropna col with
  | [] | [_] => None
  | xs =>
      let m := Qsum xs / of_nat (length xs) in
      Some (Qsum (map (fun x => (x - m) * (x - m)) xs)
            / of_nat (length xs - 1))
  end.

End Pandas.

Import Pandas.

(** ** Data model *)

(** One trading day of the price series; [date] is the row label. *)
Record Bar := mkBar {
  date : Z;
  Open : Q;
  High : Q;
  Low : Q;
  Close : Q
}.

(** [self.data]: the rows the provider returned, and the derived
    [Daily_Return] column once a detection run has stored it. *)
Record DataFrame := mkFrame {
  rows : list Bar;
  Daily_Return : option (list cell)
}.

Definition index (df : DataFrame) : list Z := map date (rows df).

(** [self.data.iloc[k]]; out of range raises [IndexError]. *)
Definition iloc (df : DataFrame) (k : nat) : option Bar := nth_error (rows df) k.

(** [self.data.index[k]] *)
Definition index_at (df : DataFrame) (k : nat) : option Z := nth_error (index df) k.

Inductive Status := completed | pending.

Definition Status_eqb (a b : Status) : bool :=
  match a, b with
  | completed, completed | pending, pending => true
  | _, _ => false
  end.

(** One entry of [breakout_results]. *)
Record BreakoutEvent := mkEvent {
  breakout_date : Z;
  breakout_price : Q;
  breakout_return : Q;
  future_price : cell;
  future_return : cell;
  is_winner : option bool;
  status : Status;
  hold_period_data : list (Z * Q)
}.

(** The analyzer object: [self.data] (already fetched) and [self.breakouts]. *)
Record Analyzer := mkAnalyzer {
  data : DataFrame;
  breakouts : option (list BreakoutEvent)
}.

(** ** Errors and state

    A method either raises ([None]) or returns a value and the analyzer
    as it left it. *)

Definition bind {A B : Type} (m : option A) (k : A -> option B) : option B :=
  match m with
  | Some a => k a
  | None => None
  end.

Declare Scope err_scope.
Delimit Scope err_scope with err.
Notation "x <- m ;; k" := (bind m (fun x => k))
  (at level 100, m at next level, right associativity) : err_scope.
Open Scope err_scope.

Definition Method (A : Type) : Type := Analyzer -> option (A * Analyzer).

Definition mbind {A B : Type} (m : Method A) (k : A -> Method B) : Method B :=
  fun s => r <- m s ;; k (fst r) (snd r).

Definition mret {A : Type} (a : A) : Method A := fun s => Some (a, s).

(** ** [SilverBreakoutAnalyzer.identify_breakouts] *)

Section Detection.

Variable threshold_pct : Q.
Variables hold_days future_days : nat.

(** [self.data['Close'].pct_change() * 100] *)
Definition daily_returns (df : DataFrame) : list cell :=
  scale 100 (pct_change (map Close (rows df))).

(** [self.data['Daily_Return'] = ...] *)
Definition set_Daily_Return (df : DataFrame) : DataFrame :=
  mkFrame (rows df) (Some (daily_returns df)).

(** [self.data[self.data['Daily_Return'] >= threshold_pct]]: the rows
    whose return is a number at least the threshold, each with its
    return; a [NaN] return compares false. *)
Fixpoint select (bs : list Bar) (col : list cell) : list (Bar * Q) :=
  match bs, col with
  | b :: bs', Some r :: col' =>
      if Qle_bool threshold_pct r then (b, r) :: select bs' col'
      else select bs' col'
  | _ :: bs', None :: col' => select bs' col'
  | _, _ => []
  end.

(** A frame without the column raises [KeyError]. *)
Definition breakout_candidates (df : DataFrame) : option (list (Bar * Q)) :=
  col <- Daily_Return df ;;
  Some (select (rows df) col).

(** The loop of lines 90-99 over [range(1, hold_days + 1)]. *)
Fixpoint holds_above (df : DataFrame) (breakout_date : Z) (breakout_price : Q)
         (js : list nat) : option bool :=
  match js with
  | [] => Some true
  | i :: js' =>
      loc <- get_loc (index df) breakout_date ;;
      let check_idx := (loc + i)%nat in
      if (length (rows df) <=? check_idx)%nat then Some false
      else
        b <- iloc df check_idx ;;
        if Qltb (Close b) breakout_price then Some false
        else holds_above df breakout_date breakout_price js'
  end.

(** The loop of lines 118-125 over [range(hold_days + 1)]. *)
Fixpoint hold_period (df : DataFrame) (breakout_date : Z) (js : list nat)
         (hold_period_data : list (Z * Q)) : option (list (Z * Q)) :=
  match js with
  | [] => Some hold_period_data
  | i :: js' =>
      loc <- get_loc (index df) breakout_date ;;
      let check_idx := (loc + i)%nat in
      if (check_idx <? length (rows df))%nat then
        d <- index_at df check_idx ;;
        b <- iloc df check_idx ;;
        hold_period df breakout_date js' (hold_period_data ++ [(d, Close b)])
      else hold_period df breakout_date js' hold_period_data
  end.

(** The body of the loop over the candidates (lines 81-136): [None] is an
    exception, [Some None] is [continue], [Some (Some e)] appends [e]. *)
Definition analyze (df : DataFrame) (cand : Bar * Q)
  : option (option BreakoutEvent) :=
  let breakout_date := date (fst cand) in
  let breakout_price := Low (fst cand) in
  let breakout_return := snd cand in
  loc <- get_loc (index df) breakout_date ;;
  let future_idx := (loc + future_days)%nat in
  let has_future_data := (future_idx <? length (rows df))%nat in
  ok <- holds_above df breakout_date breakout_price (seq 1 hold_days) ;;
  if negb ok then Some None
  else
    outcome <-
      (if has_future_data then
         b <- iloc df future_idx ;;
         let future_price := Close b in
         let future_return :=
           ((future_price - breakout_price) / breakout_price) * 100 in
         let is_winner := Qltb breakout_price future_price in
         Some (Some future_price, Some future_return, Some is_winner,
               completed)
       else Some (None, None, None, pending)) ;;
    let '(future_price, future_return, is_winner, status) := outcome in
    hold_period_data <-
      hold_period df breakout_date (seq 0 (hold_days + 1)) [] ;;
    Some (Some (mkEvent breakout_date breakout_price breakout_return
                        future_price future_return is_winner status
                        hold_period_data)).

(** [for idx, row in breakout_candidates.iterrows(): ...] *)
Fixpoint scan (df : DataFrame) (cands : list (Bar * Q))
         (breakout_results : list BreakoutEvent)
  : option (list BreakoutEvent) :=
  match cands with
  | [] => Some breakout_results
  | cand :: cands' =>
      r <- analyze df cand ;;
      match r with
      | None => scan df cands' breakout_results
      | Some e => scan df cands' (breakout_results ++ [e])
      end
  end.

(** The method: it stores the return column in [self.data], scans the
    candidates, stores the events in [self.breakouts] and returns them. *)
Definition identify_breakouts : Method (list BreakoutEvent) :=
  fun self =>
    let df := set_Daily_Return (data self) in
    cands <- breakout_candidates df ;;
    evs <- scan df cands [] ;;
    Some (evs, mkAnalyzer df (Some evs)).

End Detection.

(** ** Aggregates *)

(** [frame[frame['status'] == s]] *)
Definition with_status (s : Status) (evs : list BreakoutEvent)
  : list BreakoutEvent :=
  filter (fun e => Status_eqb (status e) s) evs.

Definition is_true (w : option bool) : bool :=
  match w with
  | Some true => true
  | _ => false
  end.

(** [(frame['is_winner'] == True).sum()] and [frame['is_winner'].sum()]:
    both count the entries that are [True]; a missing entry adds nothing. *)
Definition winner_sum (evs : list BreakoutEvent) : nat :=
  length (filter (fun e => is_true (is_winner e)) evs).

(** [(wins / len(frame)) * 100] *)
Definition rate (wins : nat) (n : nat) : Q := (of_nat wins / of_nat n) * 100.

(** The figures [identify_breakouts] prints about a non-empty result
    (lines 142-164); the statistics of the completed events are reported
    only when there is one. *)
Record CompletedStats := mkCompletedStats {
  cs_wins : nat;
  cs_win_rate : Q;
  cs_avg_future_return : cell;
  cs_min : cell;
  cs_max : cell;
  cs_std_sq : cell
}.

Definition completed_stats (evs : list BreakoutEvent) : option CompletedStats :=
  let completed_breakouts := with_status completed evs in
  if (0 <? length completed_breakouts)%nat then
    let wins := winner_sum completed_breakouts in
    let win_rate := rate wins (length completed_breakouts) in
    let col := map future_return completed_breakouts in
    Some (mkCompletedStats wins win_rate (mean col) (min col) (max col)
                           (std_sq col))
  else None.

(** The figures of the chart title of [plot_breakouts] (lines 226-238);
    the method returns before them when there is nothing to plot. *)
Record TitleStats := mkTitleStats {
  median_return : cell;
  win_rate : Q;
  win_count : nat;
  completed_count : nat;
  pending_count : nat
}.

Definition plot_breakouts_stats (self : Analyzer) : option TitleStats :=
  match breakouts self with
  | None => None
  | Some evs =>
      if (length evs =? 0)%nat then None
      else
        let completed_breakouts := with_status completed evs in
        let pending_count := length (with_status pending evs) in
        if (0 <? length completed_breakouts)%nat then
          let win_count := winner_sum completed_breakouts in
          Some (mkTitleStats
                  (median (map future_return completed_breakouts))
                  (rate win_count (length completed_breakouts))
                  win_count (length completed_breakouts) pending_count)
        else Some (mkTitleStats (Some 0) 0 0 0 pending_count)
  end.

(** ** [SilverBreakoutAnalyzer.generate_parameter_sweep_table] *)

(** One entry of [results]; [sw_std_sq] is the square of [std_return]. *)
Record SweepRow := mkSweepRow {
  sw_threshold_pct : Q;
  sw_total_breakouts : nat;
  sw_wins : nat;
  sw_win_rate : Q;
  sw_avg_return : cell;
  sw_median_return : cell;
  sw_min_return : cell;
  sw_max_return : cell;
  sw_std_sq : cell
}.

(** The row built from the events of one run (lines 373-403). *)
Definition sweep_row (threshold : Q) (breakouts : list BreakoutEvent)
  : SweepRow :=
  if (0 <? length breakouts)%nat then
    let win_rate := rate (winner_sum breakouts) (length breakouts) in
    let col := map future_return breakouts in
    mkSweepRow threshold (length breakouts) (winner_sum breakouts) win_rate
               (mean col) (median col) (min col) (max col) (std_sq col)
  else
    mkSweepRow threshold 0 0 0 (Some 0) (Some 0) (Some 0) (Some 0) (Some 0).

(** [for threshold in thresholds: ...], each run on the analyzer as the
    one before left it. *)
Fixpoint sweep_loop (thresholds : list Q) (results : list SweepRow)
  : Method (list SweepRow) :=
  match thresholds with
  | [] => mret results
  | threshold :: thresholds' =>
      mbind (identify_breakouts threshold 2 126)
            (fun breakouts =>
               sweep_loop thresholds' (results ++ [sweep_row threshold breakouts]))
  end.

Definition generate_parameter_sweep_table (thresholds : list Q)
  : Method (list SweepRow) :=
  sweep_loop thresholds [].

(** The sweep as the specification words it: detection run once per
    threshold, each time on the analyzer as it was handed in
    ([hold_days = 2], [future_days = 126]), and one row per run. *)
Fixpoint individual_runs (self : Analyzer) (thresholds : list Q)
  : option (list SweepRow) :=
  match thresholds with
  | [] => Some []
  | threshold :: thresholds' =>
      r <- identify_breakouts threshold 2 126 self ;;
      rest <- individual_runs self thresholds' ;;
      Some (sweep_row threshold (fst r) :: rest)
  end.

(** ** The result read by position

    What the loop body computes for the candidate found at position [i],
    written without the label lookups; the lemmas below show that the
    method computes exactly this. *)

Definition closes_at_or_above (bs : list Bar) (p : Q) (k : nat) : bool :=
  match nth_error bs k with
  | Some b => Qle_bool p (Close b)
  | None => false
  end.

Definition held (bs : list Bar) (i h : nat) (p : Q) : bool :=
  forallb (fun j => closes_at_or_above bs p (i + j)) (seq 1 h).

Definition hold_window (bs : list Bar) (i : nat) (js : list nat)
  : list (Z * Q) :=
  flat_map (fun j => match nth_error bs (i + j) with
                     | Some b => [(date b, Close b)]
                     | None => []
                     end) js.

Definition event_at (bs : list Bar) (h f i : nat) (bar : Bar) (r : Q)
  : BreakoutEvent :=
  let hp := hold_window bs i (seq 0 (h + 1)) in
  match nth_error bs (i + f) with
  | Some b =>
      mkEvent (date bar) (Low bar) r (Some (Close b))
              (Some (((Close b - Low bar) / Low bar) * 100))
              (Some (Qltb (Low bar) (Close b))) completed hp
  | None => mkEvent (date bar) (Low bar) r None None None pending hp
  end.

(** ** Sample series *)

Module Sample.

(** A day that opened, peaked, bottomed and closed at [c]. *)
Definition flat (d : Z) (c : Q) : Bar := mkBar d c c c c.

(** Closes 100, 106, 107, 108, 50; the second day rose 6% from a low
    of 105. *)
Definition breakout_day : Bar := mkBar 1 105 106 105 106.

(** The return of that day as computed, 6.000000000000005. *)
Definition rise : Q :=
  Eval vm_compute in float64 (float64 (float64 (106 / 100) - 1) * 100).

Definition series : list Bar :=
  [flat 0 100; breakout_day; flat 2 107; flat 3 108; flat 4 50].

Definition analyzer : Analyzer := mkAnalyzer (mkFrame series None) None.

Definition run (thr : Q) (h f : nat) : list BreakoutEvent * Analyzer :=
  match identify_breakouts thr h f analyzer with
  | Some r => r
  | None => ([], analyzer)
  end.

(** Threshold 5%, two hold days, outcome after one day. *)
Definition events : list BreakoutEvent := Eval vm_compute in fst (run 5 2 1).
Definition after : Analyzer := Eval vm_compute in snd (run 5 2 1).
Definition event : BreakoutEvent := Eval vm_compute in nth 0 events
  (mkEvent 0 0 0 None None None pending []).

(** Threshold 6%, which the computed return of the second day just
    exceeds, no hold days, outcome on the day itself. *)
Definition events0 : list BreakoutEvent := Eval vm_compute in fst (run 6 0 0).
Definition after0 : Analyzer := Eval vm_compute in snd (run 6 0 0).
Definition event0 : BreakoutEvent := Eval vm_compute in nth 0 events0
  (mkEvent 0 0 0 None None None pending []).

(** Threshold 5%, two hold days, outcome after four days: past the end. *)
Definition events4 : list BreakoutEvent := Eval vm_compute in fst (run 5 2 4).
Definition after4 : Analyzer := Eval vm_compute in snd (run 5 2 4).
Definition event4 : BreakoutEvent := Eval vm_compute in nth 0 events4
  (mkEvent 0 0 0 None None None pending []).

(** A 6% day that closed on its low: on the day itself the close equals
    the breakout price. *)
Definition level : Analyzer :=
  mkAnalyzer (mkFrame [flat 0 100; flat 1 106] None) None.

Definition run_level : list BreakoutEvent * Analyzer :=
  match identify_breakouts 5 0 0 level with
  | Some r => r
  | None => ([], level)
  end.

Definition events_level : list BreakoutEvent :=
  Eval vm_compute in fst run_level.
Definition after_level : Analyzer := Eval vm_compute in snd run_level.
Definition event_level : BreakoutEvent := Eval vm_compute in nth 0 events_level
  (mkEvent 0 0 0 None None None pending []).

(** 131 days: a 10% day (low 105) followed by 126 days at its close, then
    a second breakout day (low 120) and two days at its close.  With two
    hold days and an outcome after 126 days the first breakout is a
    completed winner and the second is pending. *)
Fixpoint level_days (first : Z) (n : nat) (c : Q) : list Bar :=
  match n with
  | O => []
  | S n' => flat first c :: level_days (first + 1) n' c
  end.

Definition long_series : list Bar :=
  [flat 0 100; mkBar 1 105 110 105 110] ++ level_days 2 126 110 ++
  [mkBar 128 120 125 120 125; flat 129 125; flat 130 125].

Definition long_analyzer : Analyzer :=
  mkAnalyzer (mkFrame long_series None) None.

Definition long_run : list BreakoutEvent * Analyzer :=
  match identify_breakouts 5 2 126 long_analyzer with
  | Some r => r
  | None => ([], long_analyzer)
  end.

Definition long_events : list BreakoutEvent := Eval vm_compute in fst long_run.
Definition long_after : Analyzer := Eval vm_compute in snd long_run.

End Sample.

(** ** [SilverBreakoutAnalyzer.fetch_data] *)

Module Provider.

Import String.

Section Fetch.

(** [yf.Ticker(symbol).history(start=start_date)]: the rows the provider
    has for a symbol, none when it does not know the symbol. *)
Variable history : string -> string -> list Bar.

Variable start_date : string.

Definition alt_symbols : list string := ["SLV"; "XAGUSD=X"]%string.

(** [frame.empty] *)
Definition empty (data : list Bar) : bool :=
  match data with
  | [] => true
  | _ :: _ => false
  end.

(** [for alt_symbol in alt_symbols: ...] on [self.symbol] and [self.data];
    the loop stops at the first symbol with data. *)
Fixpoint try_alternatives (alts : list string) (symbol : string)
         (data : list Bar) : string * list Bar :=
  match alts with
  | [] => (symbol, data)
  | alt_symbol :: alts' =>
      let data' := history alt_symbol start_date in
      if negb (empty data') then (alt_symbol, data')
      else try_alternatives alts' symbol data'
  end.

(** The method: the symbol and the frame it leaves in the analyzer, or
    [ValueError] when no source has data. *)
Definition fetch_data (symbol : string) : option (string * DataFrame) :=
  let data := history symbol start_date in
  let found :=
    if empty data then try_alternatives alt_symbols symbol data
    else (symbol, data) in
  if empty (snd found) then None
  else Some (fst found, mkFrame (snd found) None).

End Fetch.

End Provider.

(** ** More of the summary and of the chart *)

Inductive Color := orange | green | red.

(** The colour of one breakout on the chart (lines 193-199). *)
Definition color_of (breakout : BreakoutEvent) : Color :=
  match status breakout with
  | pending => orange
  | completed => if is_true (is_winner breakout) then green else red
  end.

(** [colors] of [plot_breakouts]; the method returns before building the
    list when there is nothing to plot. *)
Definition plot_breakouts_colors (self : Analyzer) : option (list Color) :=
  match breakouts self with
  | None => None
  | Some evs =>
      if (length evs =? 0)%nat then None else Some (map color_of evs)
  end.

Definition Color_eqb (a b : Color) : bool :=
  match a, b with
  | orange, orange | green, green | red, red => true
  | _, _ => false
  end.

Definition count_color (c : Color) (cols : list Color) : nat :=
  length (filter (Color_eqb c) cols).

(** ** [example_5_parameter_sweep] of [example_usage.py] *)

(** One printed line: threshold, breakouts, win rate, average return. *)
Definition example_5_line (threshold : Q) (breakouts : list BreakoutEvent)
  : Q * nat * Q * cell :=
  if (0 <? length breakouts)%nat then
    let win_rate := rate (winner_sum breakouts) (length breakouts) in
    let avg_return := mean (map future_return breakouts) in
    (threshold, length breakouts, win_rate, avg_return)
  else (threshold, 0%nat, 0, Some 0).

Fixpoint example_5_loop (thresholds : list Q)
         (printed : list (Q * nat * Q * cell))
  : Method (list (Q * nat * Q * cell)) :=
  match thresholds with
  | [] => mret printed
  | threshold :: thresholds' =>
      mbind (identify_breakouts threshold 2 126)
            (fun breakouts =>
               example_5_loop thresholds'
                 (printed ++ [example_5_line threshold breakouts]))
  end.

(** The lines printed, on the analyzer as fetched. *)
Definition example_5_parameter_sweep : Method (list (Q * nat * Q * cell)) :=
  example_5_loop [3; 4; 5; 6; 7] [].

(** The four columns of a row of the sweep table that the example prints. *)
Definition printed_columns (row : SweepRow) : Q * nat * Q * cell :=
  (sw_threshold_pct row, sw_total_breakouts row, sw_win_rate row,
   sw_avg_return row).

(** ** The scan, candidate by candidate *)

(** What one candidate adds to [breakout_results]. *)
Definition appended (h f : nat) (df : DataFrame) (cand : Bar * Q)
  : list BreakoutEvent :=
  match analyze h f df cand with
  | Some (Some e) => [e]
  | _ => []
  end.

(** The part of an event that the hold rule decides, without the outcome. *)
Definition detection_part (e : BreakoutEvent) : Z * Q * Q * list (Z * Q) :=
  (breakout_date e, breakout_price e, breakout_return e, hold_period_data e).

(** The part of an event that does not depend on the hold window shown. *)
Definition outcome_part (e : BreakoutEvent)
  : Z * Q * Q * cell * cell * option bool * Status :=
  (breakout_date e, breakout_price e, breakout_return e, future_price e,
   future_return e, is_winner e, status e).

(** ** More sample series *)

Module Cases.

(** Two breakout days, each followed by one day at its close; with one
    hold day and an outcome after ten days both are pending. *)
Definition recent : Analyzer :=
  mkAnalyzer
    (mkFrame [Sample.flat 0 100; mkBar 1 105 110 105 110; Sample.flat 2 110;
              mkBar 3 115 121 115 121; Sample.flat 4 121; Sample.flat 5 121]
             None) None.

Definition recent_run : list BreakoutEvent * Analyzer :=
  match identify_breakouts 5 1 10 recent with
  | Some r => r
  | None => ([], recent)
  end.

Definition recent_events : list BreakoutEvent :=
  Eval vm_compute in fst recent_run.
Definition recent_after : Analyzer := Eval vm_compute in snd recent_run.
Definition recent_first : BreakoutEvent := Eval vm_compute in
  nth 0 recent_events (mkEvent 0 0 0 None None None pending []).
Definition recent_second : BreakoutEvent := Eval vm_compute in
  nth 1 recent_events (mkEvent 0 0 0 None None None pending []).

(** The same series with the outcome after one day: both completed. *)
Definition settled_run : list BreakoutEvent * Analyzer :=
  match identify_breakouts 5 1 1 recent with
  | Some r => r
  | None => ([], recent)
  end.

Definition settled_events : list BreakoutEvent :=
  Eval vm_compute in fst settled_run.
Definition settled_after : Analyzer := Eval vm_compute in snd settled_run.

(** A series whose breakout day bears the date of the day after it. *)
Definition repeated : Analyzer :=
  mkAnalyzer
    (mkFrame [Sample.flat 0 100; Sample.flat 1 106; Sample.flat 1 107] None)
    None.

(** A day that rose from 64 to 68: the quotient 1.0625, the difference
    0.0625 and the product 6.25 are binary64 numbers, so the computed
    return is 6.25 exactly. *)
Definition tie : Analyzer :=
  mkAnalyzer (mkFrame [Sample.flat 0 64; Sample.flat 1 68] None) None.

Definition tie_run : list BreakoutEvent * Analyzer :=
  match identify_breakouts (25 # 4) 0 0 tie with
  | Some r => r
  | None => ([], tie)
  end.

Definition tie_events : list BreakoutEvent := Eval vm_compute in fst tie_run.
Definition tie_after : Analyzer := Eval vm_compute in snd tie_run.
Definition tie_event : BreakoutEvent := Eval vm_compute in
  nth 0 tie_events (mkEvent 0 0 0 None None None pending []).

(** A day that rose from 100 to 115, by 15%: the quotient 1.15 is not a
    binary64 number, and the computed return is 14.999999999999991. *)
Definition fifteen : Analyzer :=
  mkAnalyzer (mkFrame [Sample.flat 0 100; Sample.flat 1 115] None) None.

End Cases.

(** * Properties *)

(** ** Rounding to binary64 *)

(** The rounding on the values Python prints for [0.1], [1.15],
    [1.15 - 1], [(1.15 - 1) * 100] and [-2 / 3]. *)
Example float64_samples :
  float64 (1 # 10) == 3602879701896397 # 36028797018963968 /\
  float64 (115 # 100) == 2589569785738035 # 2251799813685248 /\
  float64 (float64 (115 # 100) - 1) == 337769972052787 # 2251799813685248 /\
  float64 (float64 (float64 (115 # 100) - 1) * 100)
    == 8444249301319675 # 562949953421312 /\
  float64 (- 2 # 3) == - (6004799503160661 # 9007199254740992).
Proof. repeat split; vm_compute; reflexivity. Qed.

(** Integers of at most 53 bits, and their quotients by powers of two,
    are binary64 numbers: rounding leaves them as they are. *)
Example float64_exact :
  float64 100 == 100 /\ float64 (68 / 64) == 68 / 64 /\
  float64 (25 # 4) == 25 # 4 /\ float64 0 == 0 /\
  float64 (inject_Z (2 ^ 53)) == inject_Z (2 ^ 53).
Proof. repeat split; vm_compute; reflexivity. Qed.

(** ** Label lookup *)

Section GetLoc.

Variable d : Z.

Lemma positions_In (ds : list Z) (k q : nat) :
  In q (positions d ds k) <->
  exists j, q = (k + j)%nat /\ nth_error ds j = Some d.
Proof.
  revert k; induction ds as [|x ds IH]; intros k; simpl.
  - split; [tauto|]. intros (j & _ & H). destruct j; discriminate.
  - destruct (Z.eqb_spec x d) as [->|Hne]; simpl; rewrite IH.
    + split.
      * intros [<-|(j & -> & H)].
        -- exists 0%nat. split; [lia|reflexivity].
        -- exists (S j). split; [lia|exact H].
      * intros ([|j] & -> & H).
        -- left; lia.
        -- right. exists j. split; [lia|exact H].
    + split.
      * intros (j & -> & H). exists (S j). split; [lia|exact H].
      * intros ([|j] & -> & H).
        -- simpl in H. congruence.
        -- exists j. split; [lia|exact H].
Qed.

Lemma positions_lower (ds : list Z) (k q : nat) :
  In q (positions d ds k) -> (k <= q)%nat.
Proof.
  rewrite positions_In. intros (j & -> & _). lia.
Qed.

Lemma positions_NoDup (ds : list Z) (k : nat) : NoDup (positions d ds k).
Proof.
  revert k; induction ds as [|x ds IH]; intros k; simpl.
  - constructor.
  - destruct (Z.eqb x d); [|apply IH].
    constructor; [|apply IH].
    intros H. apply positions_lower in H. lia.
Qed.

(** [get_loc] answers exactly when the label occurs once, with its
    position. *)
Lemma get_loc_Some (ds : list Z) (p : nat) :
  get_loc ds d = Some p <->
  nth_error ds p = Some d /\ forall q, nth_error ds q = Some d -> q = p.
Proof.
  unfold get_loc. split.
  - destruct (positions d ds 0) as [|p0 [|p1 l]] eqn:E; try discriminate.
    intros [= ->].
    assert (Hin : forall q, In q [p] <-> nth_error ds q = Some d).
    { intros q. rewrite <- E, positions_In. split.
      - intros (j & -> & H). exact H.
      - intros H. exists q. split; [reflexivity|exact H]. }
    split.
    + apply Hin. left; reflexivity.
    + intros q Hq. apply Hin in Hq. destruct Hq as [->|[]]. reflexivity.
  - intros [Hp Huniq].
    assert (Hin : forall q, In q (positions d ds 0) -> q = p).
    { intros q. rewrite positions_In. intros (j & -> & H).
      apply Huniq. exact H. }
    assert (Hp' : In p (positions d ds 0)).
    { apply positions_In. exists p. split; [reflexivity|exact Hp]. }
    pose proof (positions_NoDup ds 0) as Hnd.
    destruct (positions d ds 0) as [|p0 [|p1 l]].
    + destruct Hp'.
    + rewrite (Hin p0); [reflexivity|left; reflexivity].
    + exfalso. inversion Hnd as [|? ? Hnotin _]; subst.
      apply Hnotin. left.
      rewrite (Hin p0), (Hin p1); auto; simpl; auto.
Qed.

End GetLoc.

(** With pairwise distinct labels every label of the index is found. *)
Lemma get_loc_NoDup (ds : list Z) (i : nat) (d : Z) :
  NoDup ds -> nth_error ds i = Some d -> get_loc ds d = Some i.
Proof.
  intros Hnd Hi. apply get_loc_Some. split; [exact Hi|].
  intros q Hq. symmetry.
  apply (proj1 (NoDup_nth_error ds) Hnd); [|congruence].
  apply nth_error_Some. congruence.
Qed.

(** ** The loops of [identify_breakouts] *)

Lemma index_at_iloc (df : DataFrame) (k : nat) (b : Bar) :
  iloc df k = Some b -> index_at df k = Some (date b).
Proof.
  unfold iloc, index_at, index. intros H.
  rewrite nth_error_map, H. reflexivity.
Qed.

Lemma iloc_in_range (df : DataFrame) (k : nat) :
  (k < length (rows df))%nat -> exists b, iloc df k = Some b.
Proof.
  intros H. unfold iloc.
  destruct (nth_error (rows df) k) eqn:E; [eauto|].
  apply nth_error_None in E. lia.
Qed.

Lemma iloc_out_of_range (df : DataFrame) (k : nat) :
  (length (rows df) <= k)%nat -> nth_error (rows df) k = None.
Proof. apply nth_error_None. Qed.

Section Loops.

Variable df : DataFrame.
Variable d : Z.
Variable i : nat.
Hypothesis Hloc : get_loc (index df) d = Some i.

Lemma holds_above_at (p : Q) (js : list nat) :
  holds_above df d p js =
  Some (forallb (fun j => closes_at_or_above (rows df) p (i + j)) js).
Proof.
  induction js as [|j js IH]; simpl; [reflexivity|].
  rewrite Hloc; simpl. unfold closes_at_or_above at 1.
  destruct (Nat.leb_spec (length (rows df)) (i + j)) as [Hout|Hin].
  - rewrite (iloc_out_of_range _ _ Hout). reflexivity.
  - destruct (iloc_in_range _ _ Hin) as (b & Hb).
    rewrite Hb; simpl. unfold iloc in Hb. rewrite Hb.
    unfold Qltb. destruct (Qle_bool p (Close b)); simpl; [exact IH|reflexivity].
Qed.

Lemma hold_period_at (js : list nat) (acc : list (Z * Q)) :
  hold_period df d js acc = Some (acc ++ hold_window (rows df) i js).
Proof.
  revert acc; induction js as [|j js IH]; intros acc; simpl.
  - rewrite app_nil_r. reflexivity.
  - rewrite Hloc; simpl.
    destruct (Nat.ltb_spec (i + j) (length (rows df))) as [Hin|Hout].
    + destruct (iloc_in_range _ _ Hin) as (b & Hb).
      rewrite (index_at_iloc _ _ _ Hb), Hb; simpl.
      unfold iloc in Hb. rewrite Hb, IH, <- app_assoc. reflexivity.
    + rewrite (iloc_out_of_range _ _ Hout), IH. reflexivity.
Qed.

End Loops.

(** The loop body at a candidate whose label is found at position [i]. *)
Lemma analyze_at (h f : nat) (df : DataFrame) (bar : Bar) (r : Q) (i : nat) :
  get_loc (index df) (date bar) = Some i ->
  analyze h f df (bar, r) =
  Some (if held (rows df) i h (Low bar)
        then Some (event_at (rows df) h f i bar r) else None).
Proof.
  intros Hloc. unfold analyze; simpl.
  rewrite Hloc; simpl.
  rewrite (holds_above_at _ _ _ Hloc); simpl.
  fold (held (rows df) i h (Low bar)).
  destruct (held (rows df) i h (Low bar)); simpl; [|reflexivity].
  rewrite (hold_period_at _ _ _ Hloc); simpl.
  unfold event_at.
  destruct (Nat.ltb_spec (i + f) (length (rows df))) as [Hin|Hout].
  - destruct (iloc_in_range _ _ Hin) as (b & Hb).
    rewrite Hb; simpl. unfold iloc in Hb. rewrite Hb. reflexivity.
  - rewrite (iloc_out_of_range _ _ Hout). reflexivity.
Qed.

Lemma analyze_raises (h f : nat) (df : DataFrame) (cand : Bar * Q) :
  get_loc (index df) (date (fst cand)) = None -> analyze h f df cand = None.
Proof. intros H. unfold analyze. rewrite H. reflexivity. Qed.

(** A successful run of the body found the label. *)
Lemma analyze_found (h f : nat) (df : DataFrame) (cand : Bar * Q) res :
  analyze h f df cand = Some res ->
  exists i, get_loc (index df) (date (fst cand)) = Some i.
Proof.
  intros H. destruct (get_loc (index df) (date (fst cand))) eqn:E; [eauto|].
  rewrite (analyze_raises _ _ _ _ E) in H. discriminate.
Qed.

(** ** Candidates and the scan *)

Lemma select_In (thr : Q) (bs : list Bar) (col : list cell) (b : Bar) (r : Q) :
  In (b, r) (select thr bs col) <->
  exists i, nth_error bs i = Some b /\ nth_error col i = Some (Some r) /\
            Qle_bool thr r = true.
Proof.
  revert col; induction bs as [|b0 bs IH]; intros col; simpl.
  - split; [tauto|]. intros ([|i] & H & _); discriminate.
  - destruct col as [|[r0|] col]; simpl.
    + split; [tauto|]. intros ([|i] & _ & H & _); discriminate.
    + destruct (Qle_bool thr r0) eqn:E; simpl; rewrite IH; split.
      * intros [[= <- <-]|(i & H)].
        -- exists 0%nat. auto.
        -- exists (S i). exact H.
      * intros ([|i] & Hb & Hr & Hle); simpl in *.
        -- left. congruence.
        -- right. eauto.
      * intros (i & H). exists (S i). exact H.
      * intros ([|i] & Hb & Hr & Hle); simpl in *; [congruence|eauto].
    + rewrite IH; split.
      * intros (i & H). exists (S i). exact H.
      * intros ([|i] & Hb & Hr & Hle); simpl in *; [congruence|eauto].
Qed.

(** The first row has no return; row [i + 1] has the change from row [i]. *)
Lemma daily_returns_first (df : DataFrame) (r : Q) :
  nth_error (daily_returns df) 0 <> Some (Some r).
Proof.
  unfold daily_returns, scale, pct_change.
  destruct (map Close (rows df)); simpl; congruence.
Qed.

(** Row [i + 1] has the percentage change of its close over the close
    of row [i], as computed in binary64. *)
Lemma pct_from_step (prev : Q) (cs : list Q) (i : nat) (a b : Q) :
  nth_error (prev :: cs) i = Some a ->
  nth_error cs i = Some b ->
  nth_error (pct_from prev cs) i = Some (Some (float64 (float64 (b / a) - 1))).
Proof.
  revert prev i; induction cs as [|c cs IH]; intros prev i Ha Hb.
  - destruct i; discriminate.
  - destruct i as [|i].
    + injection Ha as <-. injection Hb as <-. reflexivity.
    + apply (IH c i Ha Hb).
Qed.

Lemma daily_returns_step (df : DataFrame) (i : nat) (a b : Bar) :
  nth_error (rows df) i = Some a ->
  nth_error (rows df) (S i) = Some b ->
  nth_error (daily_returns df) (S i)
    = Some (Some (float64 (float64 (float64 (Close b / Close a) - 1) * 100))).
Proof.
  intros Ha Hb. unfold daily_returns, scale, pct_change.
  assert (Ha' : nth_error (map Close (rows df)) i = Some (Close a))
    by (rewrite nth_error_map, Ha; reflexivity).
  assert (Hb' : nth_error (map Close (rows df)) (S i) = Some (Close b))
    by (rewrite nth_error_map, Hb; reflexivity).
  destruct (map Close (rows df)) as [|c cs]; [discriminate|].
  simpl in Hb'.
  change (nth_error (map (option_map (fun r => float64 (r * 100)))
                         (pct_from c cs)) i
          = Some (Some (float64 (float64 (float64 (Close b / Close a) - 1)
                                 * 100)))).
  pose proof (pct_from_step c cs i _ _ Ha' Hb') as Hstep.
  unfold cell in *. rewrite nth_error_map, Hstep. reflexivity.
Qed.

Lemma daily_returns_length (df : DataFrame) :
  length (daily_returns df) = length (rows df).
Proof.
  unfold daily_returns, scale, pct_change.
  rewrite length_map. rewrite <- (length_map Close (rows df)).
  destruct (map Close (rows df)) as [|c cs]; simpl; [reflexivity|].
  f_equal. revert c; induction cs as [|c' cs IH]; intros c; simpl; auto.
Qed.

Section Scan.

Variables hold_days future_days : nat.
Variable df : DataFrame.

Lemma scan_In (cands : list (Bar * Q)) (acc evs : list BreakoutEvent) :
  scan hold_days future_days df cands acc = Some evs ->
  forall e, In e evs <->
            In e acc \/
            exists c, In c cands /\
                      analyze hold_days future_days df c = Some (Some e).
Proof.
  revert acc; induction cands as [|c cands IH]; intros acc; simpl.
  - intros [= <-] e. split; [auto|]. intros [H|(c & [] & _)]. exact H.
  - destruct (analyze hold_days future_days df c) as [[e0|]|] eqn:E; simpl;
      [| |discriminate]; intros H e; rewrite (IH _ H).
    + rewrite in_app_iff; simpl. split.
      * intros [[Hacc|[<-|[]]]|(c' & Hc' & He)]; eauto.
      * intros [Hacc|(c' & [<-|Hc'] & He)]; eauto.
        left. right. left. congruence.
    + split.
      * intros [Hacc|(c' & Hc' & He)]; eauto.
      * intros [Hacc|(c' & [<-|Hc'] & He)]; eauto. congruence.
Qed.

Lemma scan_returns (cands : list (Bar * Q)) (acc : list BreakoutEvent) :
  (forall c, In c cands -> analyze hold_days future_days df c <> None) ->
  exists evs, scan hold_days future_days df cands acc = Some evs.
Proof.
  revert acc; induction cands as [|c cands IH]; intros acc Hok; simpl.
  - eauto.
  - destruct (analyze hold_days future_days df c) as [[e0|]|] eqn:E; simpl.
    + apply IH. intros c' Hc'. apply Hok. right; exact Hc'.
    + apply IH. intros c' Hc'. apply Hok. right; exact Hc'.
    + exfalso. apply (Hok c); [left; reflexivity|exact E].
Qed.

Lemma scan_raises (cands : list (Bar * Q)) (acc : list BreakoutEvent) c :
  In c cands -> analyze hold_days future_days df c = None ->
  scan hold_days future_days df cands acc = None.
Proof.
  revert acc; induction cands as [|c0 cands IH]; intros acc [].
  - subst c0. intros E. simpl. rewrite E. reflexivity.
  - intros E. simpl.
    destruct (analyze hold_days future_days df c0) as [[e0|]|]; simpl; auto.
Qed.

End Scan.

(** ** What a detection run returns *)

Lemma nth_error_index (df : DataFrame) (i : nat) (bar : Bar) :
  nth_error (rows df) i = Some bar -> nth_error (index df) i = Some (date bar).
Proof. intros H. unfold index. rewrite nth_error_map, H. reflexivity. Qed.

Section Characterisation.

Variable thr : Q.
Variables h f : nat.
Variable self : Analyzer.

(** The column is there when the candidates are selected. *)
Lemma identify_breakouts_scan :
  identify_breakouts thr h f self =
  (evs <- scan h f (set_Daily_Return (data self))
            (select thr (rows (data self)) (daily_returns (data self))) [] ;;
   Some (evs, mkAnalyzer (set_Daily_Return (data self)) (Some evs))).
Proof. reflexivity. Qed.

Lemma identify_breakouts_state evs self' :
  identify_breakouts thr h f self = Some (evs, self') ->
  self' = mkAnalyzer (set_Daily_Return (data self)) (Some evs).
Proof.
  rewrite identify_breakouts_scan.
  destruct (scan _ _ _ _ _); simpl; [|discriminate].
  intros [= <- <-]. reflexivity.
Qed.

(** The events returned are those of the positions whose return reaches
    the threshold and whose hold window closes at or above the low. *)
Lemma identify_breakouts_In evs self' :
  identify_breakouts thr h f self = Some (evs, self') ->
  forall e,
    In e evs <->
    exists i bar r,
      nth_error (rows (data self)) i = Some bar /\
      nth_error (daily_returns (data self)) i = Some (Some r) /\
      Qle_bool thr r = true /\
      get_loc (index (data self)) (date bar) = Some i /\
      held (rows (data self)) i h (Low bar) = true /\
      e = event_at (rows (data self)) h f i bar r.
Proof.
  rewrite identify_breakouts_scan.
  destruct (scan _ _ _ _ _) as [evs0|] eqn:Hscan; simpl; [|discriminate].
  intros [= <- _] e.
  rewrite (scan_In _ _ _ _ _ _ Hscan). simpl. split.
  - intros [[]|((bar & r) & Hc & Ha)].
    apply select_In in Hc. destruct Hc as (i & Hb & Hr & Hle).
    destruct (analyze_found _ _ _ _ _ Ha) as (i' & Hloc).
    assert (i = i') as <-.
    { apply (proj1 (get_loc_Some _ _ _) Hloc).
      apply (nth_error_index (set_Daily_Return (data self))). exact Hb. }
    rewrite (analyze_at h f _ bar r i Hloc) in Ha. simpl in Ha.
    destruct (held (rows (data self)) i h (Low bar)) eqn:Hheld;
      [|discriminate].
    injection Ha as <-.
    exists i, bar, r. auto 10.
  - intros (i & bar & r & Hb & Hr & Hle & Hloc & Hheld & ->).
    right. exists (bar, r). split.
    + apply select_In. eauto.
    + rewrite (analyze_at h f (set_Daily_Return (data self)) bar r i Hloc).
      simpl. rewrite Hheld. reflexivity.
Qed.

(** With pairwise distinct dates the run returns normally. *)
Lemma identify_breakouts_returns :
  NoDup (index (data self)) ->
  exists evs,
    identify_breakouts thr h f self =
    Some (evs, mkAnalyzer (set_Daily_Return (data self)) (Some evs)).
Proof.
  intros Hnd. rewrite identify_breakouts_scan.
  destruct (scan_returns h f (set_Daily_Return (data self))
              (select thr (rows (data self)) (daily_returns (data self))) [])
    as (evs & Hscan).
  - intros (bar & r) Hc.
    apply select_In in Hc. destruct Hc as (i & Hb & _).
    rewrite (analyze_at h f _ bar r i); [discriminate|].
    apply get_loc_NoDup; [exact Hnd|].
    apply (nth_error_index (set_Daily_Return (data self))). exact Hb.
  - exists evs. rewrite Hscan. reflexivity.
Qed.

End Characterisation.

(** ** The fields of an event *)

Lemma held_spec (bs : list Bar) (i h : nat) (p : Q) :
  held bs i h p = true <->
  forall j, (1 <= j <= h)%nat ->
            exists b, nth_error bs (i + j) = Some b /\ p <= Close b.
Proof.
  unfold held. rewrite forallb_forall. split.
  - intros H j Hj.
    assert (Hin : In j (seq 1 h)) by (apply in_seq; lia).
    specialize (H j Hin). unfold closes_at_or_above in H.
    destruct (nth_error bs (i + j)) as [b|]; [|discriminate].
    exists b. split; [reflexivity|]. apply Qle_bool_iff. exact H.
  - intros H j Hj. apply in_seq in Hj.
    destruct (H j) as (b & Hb & Hle); [lia|].
    unfold closes_at_or_above. rewrite Hb. apply Qle_bool_iff. exact Hle.
Qed.

Lemma Qltb_lt (a b : Q) : Qltb a b = true <-> a < b.
Proof.
  unfold Qltb. rewrite negb_true_iff. split.
  - intros H. apply Qnot_le_lt. intros Hle.
    apply Qle_bool_iff in Hle. congruence.
  - intros H. destruct (Qle_bool b a) eqn:E; [|reflexivity].
    apply Qle_bool_iff in E. exfalso. exact (Qlt_not_le _ _ H E).
Qed.

Lemma event_at_date bs h f i bar r :
  breakout_date (event_at bs h f i bar r) = date bar.
Proof. unfold event_at. destruct (nth_error bs (i + f)); reflexivity. Qed.

Lemma event_at_price bs h f i bar r :
  breakout_price (event_at bs h f i bar r) = Low bar.
Proof. unfold event_at. destruct (nth_error bs (i + f)); reflexivity. Qed.

Lemma event_at_return bs h f i bar r :
  breakout_return (event_at bs h f i bar r) = r.
Proof. unfold event_at. destruct (nth_error bs (i + f)); reflexivity. Qed.

Lemma event_at_hold bs h f i bar r :
  hold_period_data (event_at bs h f i bar r) = hold_window bs i (seq 0 (h + 1)).
Proof. unfold event_at. destruct (nth_error bs (i + f)); reflexivity. Qed.

(** ** Events and positions *)

Section Reported.

Variable thr : Q.
Variables h f : nat.
Variable self : Analyzer.

(** A reported event whose date is that of row [i] is the event of
    position [i]: the return there reaches the threshold and the hold
    window held. *)
Lemma reported_at evs self' e i bar :
  identify_breakouts thr h f self = Some (evs, self') ->
  In e evs ->
  nth_error (rows (data self)) i = Some bar ->
  date bar = breakout_date e ->
  exists r,
    nth_error (daily_returns (data self)) i = Some (Some r) /\
    Qle_bool thr r = true /\
    held (rows (data self)) i h (Low bar) = true /\
    e = event_at (rows (data self)) h f i bar r.
Proof.
  intros Hrun He Hb Hd.
  apply (identify_breakouts_In _ _ _ _ _ _ Hrun) in He.
  destruct He as (i' & bar' & r & Hb' & Hr & Hle & Hloc & Hheld & ->).
  rewrite event_at_date in Hd.
  assert (i = i') as <-.
  { apply (proj1 (get_loc_Some _ _ _) Hloc).
    rewrite <- Hd. apply nth_error_index. exact Hb. }
  assert (bar' = bar) as -> by congruence.
  exists r. auto.
Qed.

(** With pairwise distinct dates, a position whose return reaches the
    threshold and whose hold window held is reported, once. *)
Lemma confirmed_reported i bar r :
  NoDup (index (data self)) ->
  nth_error (rows (data self)) i = Some bar ->
  nth_error (daily_returns (data self)) i = Some (Some r) ->
  Qle_bool thr r = true ->
  held (rows (data self)) i h (Low bar) = true ->
  exists evs self',
    identify_breakouts thr h f self = Some (evs, self') /\
    In (event_at (rows (data self)) h f i bar r) evs /\
    forall e, In e evs -> breakout_date e = date bar ->
              e = event_at (rows (data self)) h f i bar r.
Proof.
  intros Hnd Hb Hr Hle Hheld.
  destruct (identify_breakouts_returns thr h f self Hnd) as (evs & Hrun).
  exists evs, (mkAnalyzer (set_Daily_Return (data self)) (Some evs)).
  split; [exact Hrun|]. split.
  - apply (identify_breakouts_In _ _ _ _ _ _ Hrun).
    exists i, bar, r. repeat split; auto.
    apply get_loc_NoDup; [exact Hnd|]. apply nth_error_index. exact Hb.
  - intros e He Hd.
    destruct (reported_at _ _ e i bar Hrun He Hb (eq_sym Hd))
      as (r' & Hr' & _ & _ & ->).
    congruence.
Qed.

End Reported.

(** C3: a reported event at position [i] has all of the positions
    [i+1 .. i+hold_days] in the series, each closing at or above the
    breakout price, which is the low of day [i]; so with [hold_days >= 1]
    position [i] is not the last one of the series. *)
Theorem hold_window_confirmed thr h f self evs self' e i bar :
  identify_breakouts thr h f self = Some (evs, self') ->
  In e evs ->
  nth_error (rows (data self)) i = Some bar ->
  date bar = breakout_date e ->
  breakout_price e = Low bar /\
  (forall j, (1 <= j <= h)%nat ->
             exists b, nth_error (rows (data self)) (i + j) = Some b /\
                       breakout_price e <= Close b) /\
  ((1 <= h)%nat -> (i + 1 < length (rows (data self)))%nat).
Proof.
  intros Hrun He Hb Hd.
  destruct (reported_at _ _ _ _ _ _ e i bar Hrun He Hb Hd)
    as (r & _ & _ & Hheld & ->).
  rewrite event_at_price.
  pose proof (proj1 (held_spec _ _ _ _) Hheld) as Hall.
  split; [reflexivity|]. split; [exact Hall|].
  intros Hh. destruct (Hall 1%nat) as (b & Hb1 & _); [lia|].
  apply nth_error_Some. congruence.
Qed.

Lemma hold_window_confirmed_witness :
  identify_breakouts 5 2 1 Sample.analyzer = Some (Sample.events, Sample.after) /\
  In Sample.event Sample.events /\
  nth_error (rows (data Sample.analyzer)) 1 = Some Sample.breakout_day /\
  breakout_price Sample.event = Low Sample.breakout_day /\
  (exists b, nth_error (rows (data Sample.analyzer)) (1 + 2) = Some b /\
             breakout_price Sample.event <= Close b) /\
  (1 + 1 < length (rows (data Sample.analyzer)))%nat.
Proof.
  assert (Hrun : identify_breakouts 5 2 1 Sample.analyzer
                 = Some (Sample.events, Sample.after)) by reflexivity.
  assert (He : In Sample.event Sample.events) by (left; reflexivity).
  assert (Hb : nth_error (rows (data Sample.analyzer)) 1
               = Some Sample.breakout_day) by reflexivity.
  destruct (hold_window_confirmed 5 2 1 Sample.analyzer Sample.events
              Sample.after Sample.event 1 Sample.breakout_day
              Hrun He Hb eq_refl) as (Hp & Hall & Hlast).
  split; [exact Hrun|]. split; [exact He|]. split; [exact Hb|].
  split; [exact Hp|]. split.
  - apply Hall. lia.
  - apply Hlast. lia.
Defined.

Lemma Sample_dates_distinct : NoDup (index (data Sample.analyzer)).
Proof.
  unfold index; simpl.
  repeat (constructor; [simpl; intuition discriminate|]). constructor.
Qed.

(** C4: with pairwise distinct dates, a candidate at position [i] whose
    hold window held is reported; its event is completed, with the close
    of position [i + future_days] as future price and the percentage
    change from the breakout price as future return, when that position is
    in the series, and is pending with future price, future return and
    winner flag all missing when it is not. *)
Theorem outcome_of_confirmed thr h f self i bar r :
  NoDup (index (data self)) ->
  nth_error (rows (data self)) i = Some bar ->
  nth_error (daily_returns (data self)) i = Some (Some r) ->
  thr <= r ->
  (forall j, (1 <= j <= h)%nat ->
             exists b, nth_error (rows (data self)) (i + j) = Some b /\
                       Low bar <= Close b) ->
  exists evs self',
    identify_breakouts thr h f self = Some (evs, self') /\
    (exists e, In e evs /\ breakout_date e = date bar) /\
    forall e, In e evs -> breakout_date e = date bar ->
      breakout_price e = Low bar /\
      (forall b, nth_error (rows (data self)) (i + f) = Some b ->
         status e = completed /\
         future_price e = Some (Close b) /\
         future_return e =
           Some (((Close b - breakout_price e) / breakout_price e) * 100)) /\
      ((length (rows (data self)) <= i + f)%nat ->
         status e = pending /\
         future_price e = None /\ future_return e = None /\
         is_winner e = None).
Proof.
  intros Hnd Hb Hr Hle Hhold.
  apply Qle_bool_iff in Hle. apply held_spec in Hhold.
  destruct (confirmed_reported thr h f self i bar r Hnd Hb Hr Hle Hhold)
    as (evs & self' & Hrun & Hin & Honly).
  exists evs, self'. split; [exact Hrun|]. split.
  - eexists. split; [exact Hin|]. apply event_at_date.
  - intros e He Hd. rewrite (Honly e He Hd). unfold event_at.
    split; [destruct (nth_error _ (i + f)); reflexivity|]. split.
    + intros b Hf. rewrite Hf. simpl. auto.
    + intros Hout. apply nth_error_None in Hout. rewrite Hout. simpl. auto.
Qed.

Lemma outcome_of_confirmed_witness :
  (In Sample.event Sample.events /\
   status Sample.event = completed /\
   future_price Sample.event = Some 107 /\
   future_return Sample.event = Some (((107 - 105) / 105) * 100)) /\
  (In Sample.event4 Sample.events4 /\
   status Sample.event4 = pending /\
   future_price Sample.event4 = None /\ future_return Sample.event4 = None /\
   is_winner Sample.event4 = None).
Proof.
  assert (Hb : nth_error (rows (data Sample.analyzer)) 1
               = Some Sample.breakout_day) by reflexivity.
  assert (Hr : nth_error (daily_returns (data Sample.analyzer)) 1
               = Some (Some Sample.rise)) by reflexivity.
  assert (Hle : 5 <= Sample.rise)
    by (apply Qle_bool_iff; reflexivity).
  assert (Hhold : forall j, (1 <= j <= 2)%nat ->
            exists b, nth_error (rows (data Sample.analyzer)) (1 + j) = Some b /\
                      Low Sample.breakout_day <= Close b)
    by (apply held_spec; reflexivity).
  split.
  - destruct (outcome_of_confirmed 5 2 1 Sample.analyzer 1 Sample.breakout_day _
                Sample_dates_distinct Hb Hr Hle Hhold)
      as (evs & self' & Hrun & _ & Hall).
    assert (Hrun0 : identify_breakouts 5 2 1 Sample.analyzer
                    = Some (Sample.events, Sample.after)) by reflexivity.
    rewrite Hrun0 in Hrun. injection Hrun as <- <-.
    assert (He : In Sample.event Sample.events) by (left; reflexivity).
    destruct (Hall Sample.event He eq_refl) as (_ & Hdone & _).
    destruct (Hdone (Sample.flat 2 107) eq_refl) as (Hs & Hp & Hret).
    split; [exact He|]. split; [exact Hs|]. split; [exact Hp|exact Hret].
  - destruct (outcome_of_confirmed 5 2 4 Sample.analyzer 1 Sample.breakout_day _
                Sample_dates_distinct Hb Hr Hle Hhold)
      as (evs & self' & Hrun & _ & Hall).
    assert (Hrun0 : identify_breakouts 5 2 4 Sample.analyzer
                    = Some (Sample.events4, Sample.after4)) by reflexivity.
    rewrite Hrun0 in Hrun. injection Hrun as <- <-.
    assert (He : In Sample.event4 Sample.events4) by (left; reflexivity).
    destruct (Hall Sample.event4 He eq_refl) as (_ & _ & Hpend).
    split; [exact He|]. apply Hpend. simpl. lia.
Defined.

(** Against C5 as stated: the day that rose from 100 to 115 has a return
    of 15, the threshold, by either formula of the return (and the
    formula [(close - previous) / previous * 100] gives 15 in binary64
    too); the return the code computes, [(close / previous - 1) * 100] in
    binary64, is below 15, and the day is not a candidate. *)
Lemma exact_tie_is_dropped :
  (115 - 100) / 100 * 100 == 15 /\
  (115 / 100 - 1) * 100 == 15 /\
  float64 (float64 (float64 (115 - 100) / 100) * 100) == 15 /\
  (exists r, nth_error (daily_returns (data Cases.fifteen)) 1 = Some (Some r) /\
             r < 15) /\
  exists self',
    identify_breakouts 15 0 0 Cases.fifteen = Some ([], self') /\
    breakout_candidates 15 (data self') = Some [].
Proof.
  split; [reflexivity|]. split; [reflexivity|]. split; [reflexivity|].
  split.
  - eexists. split; [vm_compute; reflexivity|reflexivity].
  - eexists. split; [vm_compute; reflexivity|reflexivity].
Qed.

(** C5, as the code has it: every reported event has a breakout return of
    at least the threshold; the return of a day is the binary64 value of
    [(close / previous close - 1) * 100], and a day whose return, so
    computed, equals the threshold is among the candidates; the first row
    has no return and no reported event bears its date. *)
Theorem threshold_respected thr h f self evs self' :
  identify_breakouts thr h f self = Some (evs, self') ->
  (forall e, In e evs -> thr <= breakout_return e) /\
  Daily_Return (data self') = Some (daily_returns (data self)) /\
  (forall i a b,
      nth_error (rows (data self)) i = Some a ->
      nth_error (rows (data self)) (S i) = Some b ->
      nth_error (daily_returns (data self)) (S i)
      = Some (Some (float64 (float64 (float64 (Close b / Close a) - 1)
                             * 100)))) /\
  (forall i bar r,
      nth_error (rows (data self)) i = Some bar ->
      nth_error (daily_returns (data self)) i = Some (Some r) ->
      r == thr ->
      exists cands, breakout_candidates thr (data self') = Some cands /\
                    In (bar, r) cands) /\
  (forall bar,
      nth_error (rows (data self)) 0 = Some bar ->
      nth_error (daily_returns (data self)) 0 = Some None /\
      forall e, In e evs -> breakout_date e <> date bar).
Proof.
  intros Hrun. split; [|split; [|split; [|split]]].
  - intros e He.
    apply (identify_breakouts_In _ _ _ _ _ _ Hrun) in He.
    destruct He as (i & bar & r & _ & _ & Hle & _ & _ & ->).
    rewrite event_at_return. apply Qle_bool_iff. exact Hle.
  - rewrite (identify_breakouts_state _ _ _ _ _ _ Hrun). reflexivity.
  - intros i a b Ha Hb. exact (daily_returns_step _ _ _ _ Ha Hb).
  - intros i bar r Hb Hr Heq.
    rewrite (identify_breakouts_state _ _ _ _ _ _ Hrun).
    eexists. split; [reflexivity|]. apply select_In.
    exists i. split; [exact Hb|]. split; [exact Hr|].
    apply Qle_bool_iff. rewrite Heq. apply Qle_refl.
  - intros bar Hb. split.
    + unfold daily_returns, scale, pct_change.
      destruct (rows (data self)); [discriminate|reflexivity].
    + intros e He Hd.
      destruct (reported_at _ _ _ _ _ _ e 0%nat bar Hrun He Hb (eq_sym Hd))
        as (r & Hr & _).
      exact (daily_returns_first _ _ Hr).
Qed.

Lemma threshold_respected_witness :
  identify_breakouts (25 # 4) 0 0 Cases.tie
    = Some (Cases.tie_events, Cases.tie_after) /\
  25 # 4 <= breakout_return Cases.tie_event /\
  nth_error (daily_returns (data Cases.tie)) 1
    = Some (Some (float64 (float64 (float64 (68 / 64) - 1) * 100))) /\
  float64 (float64 (float64 (68 / 64) - 1) * 100) == 25 # 4 /\
  (exists cands,
      breakout_candidates (25 # 4) (data Cases.tie_after) = Some cands /\
      In (Sample.flat 1 68, 25 # 4) cands) /\
  nth_error (daily_returns (data Cases.tie)) 0 = Some None /\
  breakout_date Cases.tie_event <> date (Sample.flat 0 64).
Proof.
  assert (Hrun : identify_breakouts (25 # 4) 0 0 Cases.tie
                 = Some (Cases.tie_events, Cases.tie_after)) by reflexivity.
  destruct (threshold_respected (25 # 4) 0 0 Cases.tie Cases.tie_events
              Cases.tie_after Hrun) as (Hge & _ & Hstep & Htie & Hfirst).
  assert (He : In Cases.tie_event Cases.tie_events) by (left; reflexivity).
  split; [exact Hrun|]. split; [exact (Hge _ He)|].
  split; [exact (Hstep 0%nat (Sample.flat 0 64) (Sample.flat 1 68)
                   eq_refl eq_refl)|].
  split; [reflexivity|]. split.
  - apply (Htie 1%nat); reflexivity.
  - destruct (Hfirst (Sample.flat 0 64) eq_refl) as (Hnan & Hnot).
    split; [exact Hnan|exact (Hnot _ He)].
Defined.

(** C6: the winner flag of a completed event is the strict comparison
    [future_price > breakout_price]; a future price equal to the breakout
    price is a loss. *)
Theorem winner_is_strict thr h f self evs self' e :
  identify_breakouts thr h f self = Some (evs, self') ->
  In e evs ->
  status e = completed ->
  exists fp,
    future_price e = Some fp /\
    is_winner e = Some (Qltb (breakout_price e) fp) /\
    (is_winner e = Some true <-> breakout_price e < fp) /\
    (fp == breakout_price e -> is_winner e = Some false).
Proof.
  intros Hrun He Hs.
  apply (identify_breakouts_In _ _ _ _ _ _ Hrun) in He.
  destruct He as (i & bar & r & _ & _ & _ & _ & _ & ->).
  unfold event_at in *.
  destruct (nth_error (rows (data self)) (i + f)) as [b|]; simpl in *;
    [|discriminate].
  exists (Close b). split; [reflexivity|]. split; [reflexivity|]. split.
  - rewrite <- Qltb_lt. split; congruence.
  - intros Heq. f_equal. unfold Qltb.
    apply negb_false_iff, Qle_bool_iff. rewrite Heq. apply Qle_refl.
Qed.

Lemma winner_is_strict_witness :
  identify_breakouts 5 0 0 Sample.level
    = Some (Sample.events_level, Sample.after_level) /\
  In Sample.event_level Sample.events_level /\
  status Sample.event_level = completed /\
  future_price Sample.event_level = Some (breakout_price Sample.event_level) /\
  is_winner Sample.event_level = Some false.
Proof.
  assert (Hrun : identify_breakouts 5 0 0 Sample.level
                 = Some (Sample.events_level, Sample.after_level))
    by reflexivity.
  assert (He : In Sample.event_level Sample.events_level)
    by (left; reflexivity).
  destruct (winner_is_strict 5 0 0 Sample.level Sample.events_level
              Sample.after_level Sample.event_level Hrun He eq_refl)
    as (fp & Hfp & _ & _ & Htie).
  split; [exact Hrun|]. split; [exact He|]. split; [reflexivity|].
  split; [reflexivity|].
  apply Htie. cbv in Hfp. injection Hfp as <-. reflexivity.
Defined.

(** ** The hold-period prices *)

Lemma hold_window_full (bs : list Bar) (i n s : nat) :
  (i + s + n <= length bs)%nat ->
  length (hold_window bs i (seq s n)) = n /\
  forall k, (k < n)%nat ->
            exists b, nth_error bs (i + (s + k)) = Some b /\
                      nth_error (hold_window bs i (seq s n)) k
                      = Some (date b, Close b).
Proof.
  revert s; induction n as [|n IH]; intros s Hlen; simpl.
  - split; [reflexivity|]. intros k Hk. lia.
  - destruct (nth_error bs (i + s)) as [b|] eqn:Hb.
    2:{ apply nth_error_None in Hb. lia. }
    destruct (IH (S s)) as (IHlen & IHnth); [lia|].
    simpl. split; [f_equal; exact IHlen|].
    intros [|k] Hk.
    + exists b. rewrite Nat.add_0_r. split; [exact Hb|reflexivity].
    + destruct (IHnth k) as (b' & Hb' & Hk'); [lia|].
      exists b'. split; [|exact Hk'].
      replace (s + S k)%nat with (S s + k)%nat by lia. exact Hb'.
Qed.

(** C9: the hold-period prices of a reported event at position [i] are
    the [hold_days + 1] pairs of date and close of positions
    [i .. i + hold_days], none left out. *)
Theorem hold_period_complete thr h f self evs self' e i bar :
  identify_breakouts thr h f self = Some (evs, self') ->
  In e evs ->
  nth_error (rows (data self)) i = Some bar ->
  date bar = breakout_date e ->
  length (hold_period_data e) = (h + 1)%nat /\
  forall j, (j <= h)%nat ->
            exists b, nth_error (rows (data self)) (i + j) = Some b /\
                      nth_error (hold_period_data e) j
                      = Some (date b, Close b).
Proof.
  intros Hrun He Hb Hd.
  destruct (reported_at _ _ _ _ _ _ e i bar Hrun He Hb Hd)
    as (r & _ & _ & Hheld & ->).
  rewrite event_at_hold.
  assert (Hlen : (i + 0 + (h + 1) <= length (rows (data self)))%nat).
  { destruct h as [|h'].
    - assert (i < length (rows (data self)))%nat
        by (apply nth_error_Some; congruence).
      lia.
    - destruct (proj1 (held_spec _ _ _ _) Hheld (S h')) as (b & Hb' & _);
        [lia|].
      assert (i + S h' < length (rows (data self)))%nat
        by (apply nth_error_Some; congruence).
      lia. }
  destruct (hold_window_full _ _ _ _ Hlen) as (Hn & Hnth).
  split; [exact Hn|].
  intros j Hj. apply (Hnth j). lia.
Qed.

Lemma hold_period_complete_witness :
  identify_breakouts 5 2 1 Sample.analyzer
    = Some (Sample.events, Sample.after) /\
  In Sample.event Sample.events /\
  length (hold_period_data Sample.event) = 3%nat /\
  exists b, nth_error (rows (data Sample.analyzer)) (1 + 2) = Some b /\
            nth_error (hold_period_data Sample.event) 2
            = Some (date b, Close b).
Proof.
  assert (Hrun : identify_breakouts 5 2 1 Sample.analyzer
                 = Some (Sample.events, Sample.after)) by reflexivity.
  assert (He : In Sample.event Sample.events) by (left; reflexivity).
  destruct (hold_period_complete 5 2 1 Sample.analyzer Sample.events
              Sample.after Sample.event 1 Sample.breakout_day
              Hrun He eq_refl eq_refl) as (Hlen & Hnth).
  split; [exact Hrun|]. split; [exact He|]. split; [exact Hlen|].
  apply Hnth. lia.
Defined.

(** C10: with [future_days = 0] and pairwise distinct dates, a candidate
    at position [i] whose hold window held is reported as completed: its
    future price is the close of day [i] itself, its future return the
    percentage change from the low to the close of that day, and it is a
    winner exactly when the close is strictly above the low. *)
Theorem same_day_outcome thr h self i bar r :
  NoDup (index (data self)) ->
  nth_error (rows (data self)) i = Some bar ->
  nth_error (daily_returns (data self)) i = Some (Some r) ->
  thr <= r ->
  (forall j, (1 <= j <= h)%nat ->
             exists b, nth_error (rows (data self)) (i + j) = Some b /\
                       Low bar <= Close b) ->
  exists evs self',
    identify_breakouts thr h 0 self = Some (evs, self') /\
    (exists e, In e evs /\ breakout_date e = date bar) /\
    forall e, In e evs -> breakout_date e = date bar ->
      status e = completed /\
      future_price e = Some (Close bar) /\
      future_return e = Some (((Close bar - Low bar) / Low bar) * 100) /\
      is_winner e = Some (Qltb (Low bar) (Close bar)) /\
      (is_winner e = Some true <-> Low bar < Close bar).
Proof.
  intros Hnd Hb Hr Hle Hhold.
  apply Qle_bool_iff in Hle. apply held_spec in Hhold.
  destruct (confirmed_reported thr h 0 self i bar r Hnd Hb Hr Hle Hhold)
    as (evs & self' & Hrun & Hin & Honly).
  exists evs, self'. split; [exact Hrun|]. split.
  - eexists. split; [exact Hin|]. apply event_at_date.
  - intros e He Hd. rewrite (Honly e He Hd). unfold event_at.
    rewrite Nat.add_0_r, Hb. simpl.
    repeat (split; [reflexivity|]).
    rewrite <- Qltb_lt. split; congruence.
Qed.

Lemma same_day_outcome_witness :
  In Sample.event0 Sample.events0 /\
  status Sample.event0 = completed /\
  future_price Sample.event0 = Some 106 /\
  future_return Sample.event0 = Some (((106 - 105) / 105) * 100) /\
  is_winner Sample.event0 = Some true.
Proof.
  assert (Hb : nth_error (rows (data Sample.analyzer)) 1
               = Some Sample.breakout_day) by reflexivity.
  assert (Hr : nth_error (daily_returns (data Sample.analyzer)) 1
               = Some (Some Sample.rise)) by reflexivity.
  assert (Hle : 6 <= Sample.rise)
    by (apply Qle_bool_iff; reflexivity).
  assert (Hhold : forall j, (1 <= j <= 0)%nat ->
            exists b, nth_error (rows (data Sample.analyzer)) (1 + j) = Some b /\
                      Low Sample.breakout_day <= Close b)
    by (intros j Hj; lia).
  destruct (same_day_outcome 6 0 Sample.analyzer 1 Sample.breakout_day _
              Sample_dates_distinct Hb Hr Hle Hhold)
    as (evs & self' & Hrun & _ & Hall).
  assert (Hrun0 : identify_breakouts 6 0 0 Sample.analyzer
                  = Some (Sample.events0, Sample.after0)) by reflexivity.
  rewrite Hrun0 in Hrun. injection Hrun as <- <-.
  assert (He : In Sample.event0 Sample.events0) by (left; reflexivity).
  destruct (Hall Sample.event0 He eq_refl) as (Hs & Hp & Hret & Hw & Hiff).
  split; [exact He|]. split; [exact Hs|]. split; [exact Hp|].
  split; [exact Hret|exact Hw].
Defined.

(** ** The parameter sweep *)

(** A run reads nothing of the analyzer but the rows of its series. *)
Lemma identify_breakouts_rows thr h f (s1 s2 : Analyzer) :
  rows (data s1) = rows (data s2) ->
  identify_breakouts thr h f s1 = identify_breakouts thr h f s2.
Proof.
  intros H. rewrite !identify_breakouts_scan.
  unfold set_Daily_Return, daily_returns. rewrite H. reflexivity.
Qed.

Lemma identify_breakouts_keeps_rows thr h f self evs self' :
  identify_breakouts thr h f self = Some (evs, self') ->
  rows (data self') = rows (data self).
Proof.
  intros H. rewrite (identify_breakouts_state _ _ _ _ _ _ H). reflexivity.
Qed.

Lemma sweep_loop_rows (self : Analyzer) (ths : list Q) :
  forall (acc : list SweepRow) (s : Analyzer),
    rows (data s) = rows (data self) ->
    option_map fst (sweep_loop ths acc s) =
    option_map (app acc) (individual_runs self ths).
Proof.
  induction ths as [|t ths IH]; intros acc s Hs; simpl.
  - unfold mret; simpl. rewrite app_nil_r. reflexivity.
  - unfold mbind. rewrite (identify_breakouts_rows t 2 126 s self Hs).
    destruct (identify_breakouts t 2 126 self) as [[evs s']|] eqn:Hrun; simpl;
      [|reflexivity].
    rewrite IH by exact (identify_breakouts_keeps_rows _ _ _ _ _ _ Hrun).
    destruct (individual_runs self ths) as [rest|]; simpl; [|reflexivity].
    rewrite <- app_assoc. reflexivity.
Qed.

(** C7: the rows of the sweep are the rows of the individual runs: the
    row of each threshold is built from the events that a detection run
    with that threshold, two hold days and 126 future days returns on the
    analyzer as handed in, whatever the other thresholds of the list. *)
Theorem sweep_consistency (self : Analyzer) (thresholds : list Q) :
  option_map fst (generate_parameter_sweep_table thresholds self) =
  individual_runs self thresholds.
Proof.
  unfold generate_parameter_sweep_table.
  rewrite (sweep_loop_rows self thresholds [] self eq_refl).
  destruct (individual_runs self thresholds); reflexivity.
Qed.

(** ** Empty results *)

Lemma no_event_returned thr h f self :
  (forall i bar r,
      nth_error (rows (data self)) i = Some bar ->
      nth_error (daily_returns (data self)) i = Some (Some r) ->
      thr <= r ->
      get_loc (index (data self)) (date bar) = Some i /\
      held (rows (data self)) i h (Low bar) = false) ->
  identify_breakouts thr h f self =
  Some ([], mkAnalyzer (set_Daily_Return (data self)) (Some [])).
Proof.
  intros Hnone. rewrite identify_breakouts_scan.
  set (df := set_Daily_Return (data self)).
  set (selected := select thr (rows (data self)) (daily_returns (data self))).
  assert (Hscan : forall cands,
             (forall c, In c cands -> In c selected) ->
             scan h f df cands [] = Some []).
  { induction cands as [|(bar & r) cands IH]; intros Hsub; simpl;
      [reflexivity|].
    assert (Hc : In (bar, r) selected) by (apply Hsub; left; reflexivity).
    apply select_In in Hc. destruct Hc as (i & Hb & Hr & Hle).
    apply Qle_bool_iff in Hle.
    destruct (Hnone i bar r Hb Hr Hle) as (Hloc & Hheld).
    rewrite (analyze_at h f df bar r i Hloc). simpl.
    change (rows df) with (rows (data self)). rewrite Hheld.
    apply IH. intros c Hc. apply Hsub. right; exact Hc. }
  rewrite Hscan by auto. reflexivity.
Qed.

(** What of C8 the code keeps: when no day reaches the threshold, or the
    dates are pairwise distinct and no candidate's hold window held,
    detection returns the empty collection as an ordinary result; the
    sweep row built from it has 0 breakouts, win rate 0 and mean 0 (the
    sweep itself, which uses two hold days and 126 future days, produces
    that row), and the chart title of a collection without completed
    events shows win rate 0 and median 0. *)
Theorem empty_result_is_normal thr h f self :
  (forall i r, nth_error (daily_returns (data self)) i = Some (Some r) ->
               r < thr) \/
  (NoDup (index (data self)) /\
   forall i bar r,
     nth_error (rows (data self)) i = Some bar ->
     nth_error (daily_returns (data self)) i = Some (Some r) ->
     thr <= r ->
     exists j, (1 <= j <= h)%nat /\
               forall b, nth_error (rows (data self)) (i + j) = Some b ->
                         Close b < Low bar) ->
  exists self',
    identify_breakouts thr h f self = Some ([], self') /\
    breakouts self' = Some [] /\
    sweep_row thr [] =
      mkSweepRow thr 0 0 0 (Some 0) (Some 0) (Some 0) (Some 0) (Some 0) /\
    (h = 2%nat -> f = 126%nat ->
     generate_parameter_sweep_table [thr] self =
       Some ([mkSweepRow thr 0 0 0 (Some 0) (Some 0) (Some 0) (Some 0)
                         (Some 0)], self')) /\
    (forall df evs,
        evs <> [] -> with_status completed evs = [] ->
        plot_breakouts_stats (mkAnalyzer df (Some evs)) =
          Some (mkTitleStats (Some 0) 0 0 0
                             (length (with_status pending evs)))).
Proof.
  intros Hnone.
  assert (Hrun : identify_breakouts thr h f self =
                 Some ([], mkAnalyzer (set_Daily_Return (data self)) (Some []))).
  { apply no_event_returned. intros i bar r Hb Hr Hle.
    destruct Hnone as [Hlow|(Hnd & Hfail)].
    - exfalso. exact (Qlt_not_le _ _ (Hlow i r Hr) Hle).
    - split.
      + apply get_loc_NoDup; [exact Hnd|]. apply nth_error_index. exact Hb.
      + destruct (held (rows (data self)) i h (Low bar)) eqn:Hheld;
          [|reflexivity].
        exfalso. destruct (Hfail i bar r Hb Hr Hle) as (j & Hj & Hbelow).
        destruct (proj1 (held_spec _ _ _ _) Hheld j Hj) as (b & Hbj & Hge).
        exact (Qlt_not_le _ _ (Hbelow b Hbj) Hge). }
  eexists. split; [exact Hrun|]. split; [reflexivity|].
  split; [reflexivity|]. split.
  - intros -> ->. unfold generate_parameter_sweep_table; simpl.
    unfold mbind. rewrite Hrun. reflexivity.
  - intros df evs Hne Hnone'. unfold plot_breakouts_stats; simpl.
    destruct evs as [|e evs]; [congruence|].
    simpl length at 1. simpl Nat.eqb. cbv iota.
    rewrite Hnone'. reflexivity.
Qed.

Lemma empty_result_is_normal_witness :
  exists self',
    identify_breakouts 7 2 126 Sample.analyzer = Some ([], self') /\
    generate_parameter_sweep_table [7] Sample.analyzer =
      Some ([mkSweepRow 7 0 0 0 (Some 0) (Some 0) (Some 0) (Some 0) (Some 0)],
            self').
Proof.
  assert (Hlow : forall i r,
             nth_error (daily_returns (data Sample.analyzer)) i = Some (Some r) ->
             r < 7).
  { intros [|[|[|[|[|i]]]]] r H; cbv in H; try discriminate;
      try (injection H as <-; reflexivity).
    destruct i; discriminate. }
  destruct (empty_result_is_normal 7 2 126 Sample.analyzer (or_introl Hlow))
    as (self' & Hrun & _ & _ & Hsweep & _).
  exists self'. split; [exact Hrun|]. apply Hsweep; reflexivity.
Defined.


(** ** What a run changes *)

(** Against C2 as stated: after the first run the series is not what it
    was, it has the [Daily_Return] column. *)
Lemma series_gains_a_column :
  exists evs self',
    identify_breakouts 5 2 1 Sample.analyzer = Some (evs, self') /\
    data self' <> data Sample.analyzer.
Proof.
  exists Sample.events, Sample.after. split; [reflexivity|].
  intros H. apply (f_equal Daily_Return) in H. discriminate.
Qed.

(** C2, as the code has it: a run leaves the rows of the series (their
    number, their order and every date, open, high, low and close) as they
    were; what it changes in the series is the derived [Daily_Return]
    column, which it stores, computed from the closes alone, so that a
    further run with any parameters leaves the series as the first one
    left it; the events are a new collection, also stored in the
    analyzer. *)
Theorem run_keeps_the_bars thr h f self evs self' :
  identify_breakouts thr h f self = Some (evs, self') ->
  rows (data self') = rows (data self) /\
  Daily_Return (data self') = Some (daily_returns (data self)) /\
  breakouts self' = Some evs /\
  forall thr2 h2 f2 evs2 self2,
    identify_breakouts thr2 h2 f2 self' = Some (evs2, self2) ->
    data self2 = data self'.
Proof.
  intros Hrun.
  rewrite (identify_breakouts_state _ _ _ _ _ _ Hrun). simpl.
  repeat (split; [reflexivity|]).
  intros thr2 h2 f2 evs2 self2 Hrun2.
  rewrite (identify_breakouts_state _ _ _ _ _ _ Hrun2). reflexivity.
Qed.

Lemma run_keeps_the_bars_witness :
  identify_breakouts 5 2 1 Sample.analyzer
    = Some (Sample.events, Sample.after) /\
  rows (data Sample.after) = rows (data Sample.analyzer) /\
  Daily_Return (data Sample.after)
    = Some (daily_returns (data Sample.analyzer)) /\
  breakouts Sample.after = Some Sample.events /\
  match identify_breakouts 6 0 0 Sample.after with
  | Some (_, self2) => data self2 = data Sample.after
  | None => False
  end.
Proof.
  assert (Hrun : identify_breakouts 5 2 1 Sample.analyzer
                 = Some (Sample.events, Sample.after)) by reflexivity.
  destruct (run_keeps_the_bars 5 2 1 Sample.analyzer Sample.events
              Sample.after Hrun) as (Hrows & Hcol & Hevs & Hagain).
  split; [exact Hrun|]. split; [exact Hrows|]. split; [exact Hcol|].
  split; [exact Hevs|].
  destruct (identify_breakouts 6 0 0 Sample.after) as [[evs2 self2]|] eqn:E.
  - exact (Hagain _ _ _ _ _ E).
  - vm_compute in E. discriminate E.
Defined.

(** ** Aggregates and pending events *)

(** A pending event carries no outcome. *)
Lemma pending_fields thr h f self evs self' e :
  identify_breakouts thr h f self = Some (evs, self') ->
  In e evs ->
  status e = pending ->
  future_return e = None /\ is_winner e = None.
Proof.
  intros Hrun He Hs.
  apply (identify_breakouts_In _ _ _ _ _ _ Hrun) in He.
  destruct He as (i & bar & r & _ & _ & _ & _ & _ & ->).
  unfold event_at in *.
  destruct (nth_error (rows (data self)) (i + f)); simpl in *;
    [discriminate|auto].
Qed.

Lemma skip_pending (evs : list BreakoutEvent) :
  (forall e, In e evs -> status e = pending ->
             future_return e = None /\ is_winner e = None) ->
  dropna (map future_return evs)
    = dropna (map future_return (with_status completed evs)) /\
  winner_sum evs = winner_sum (with_status completed evs).
Proof.
  unfold winner_sum, with_status.
  induction evs as [|e evs IH]; intros H; simpl; [auto|].
  destruct IH as (IHr & IHw); [intros e' He'; apply H; right; exact He'|].
  destruct (status e) eqn:Hs; simpl.
  - split.
    + destruct (future_return e); [f_equal|]; exact IHr.
    + destruct (is_true (is_winner e)); simpl; [f_equal|]; exact IHw.
  - destruct (H e (or_introl eq_refl) Hs) as (-> & ->). simpl. auto.
Qed.

(** What of C1 the sweep does keep: the outcome figures of a row are taken
    over the completed events, the pending ones having no future return,
    and only completed events are counted as wins. *)
Lemma sweep_row_figures_over_completed thr h f self evs self' t :
  identify_breakouts thr h f self = Some (evs, self') ->
  evs <> [] ->
  let done := map future_return (with_status completed evs) in
  sw_wins (sweep_row t evs) = winner_sum (with_status completed evs) /\
  sw_avg_return (sweep_row t evs) = mean done /\
  sw_median_return (sweep_row t evs) = median done /\
  sw_min_return (sweep_row t evs) = min done /\
  sw_max_return (sweep_row t evs) = max done /\
  sw_std_sq (sweep_row t evs) = std_sq done.
Proof.
  intros Hrun Hne done.
  destruct (skip_pending evs) as (Hr & Hw).
  { intros e He Hs. exact (pending_fields _ _ _ _ _ _ e Hrun He Hs). }
  unfold sweep_row. destruct evs as [|e0 evs0]; [congruence|].
  cbn [length Nat.ltb Nat.leb sw_wins sw_avg_return sw_median_return
       sw_min_return sw_max_return sw_std_sq].
  unfold mean, median, min, max, std_sq. fold done. rewrite Hr, Hw.
  repeat split; reflexivity.
Qed.

(** C1, where the code departs from it: on the 131-day sample the run
    returns one completed event, a winner, and one pending event.  The
    summary of [identify_breakouts] reports 1 win of 1 completed event, a
    win rate of 100; the sweep row for the same events reports 1 win of 2
    breakouts, a win rate of 50: its denominator counts the pending
    event. *)
Theorem sweep_win_rate_counts_pending :
  exists row st,
    generate_parameter_sweep_table [5] Sample.long_analyzer
      = Some ([row], Sample.long_after) /\
    breakouts Sample.long_after = Some Sample.long_events /\
    length (with_status completed Sample.long_events) = 1%nat /\
    length (with_status pending Sample.long_events) = 1%nat /\
    sw_wins row = 1%nat /\
    sw_total_breakouts row = 2%nat /\
    sw_win_rate row == 50 /\
    ~ sw_win_rate row == rate (sw_wins row)
                              (length (with_status completed Sample.long_events)) /\
    completed_stats Sample.long_events = Some st /\
    cs_wins st = 1%nat /\
    cs_win_rate st == 100.
Proof.
  exists (sweep_row 5 Sample.long_events).
  eexists.
  split; [vm_compute; reflexivity|].
  split; [reflexivity|].
  split; [reflexivity|].
  split; [reflexivity|].
  split; [reflexivity|].
  split; [reflexivity|].
  split; [reflexivity|].
  split; [intros H; vm_compute in H; discriminate H|].
  split; [reflexivity|].
  split; reflexivity.
Qed.

(** * Further properties of the code *)

(** ** Fetching *)

(** [fetch_data] leaves in the analyzer the rows of the first of the
    symbol asked for, SLV and XAGUSD=X for which the provider has any, with
    that symbol, and never an empty series; it raises exactly when the
    provider has rows for none of the three. *)
Theorem fetch_data_first_source
        (history : String.string -> String.string -> list Bar)
        (start_date symbol : String.string) :
  match Provider.fetch_data history start_date symbol with
  | Some (s, df) =>
      rows df = history s start_date /\
      rows df <> [] /\
      Daily_Return df = None /\
      exists k,
        nth_error (symbol :: Provider.alt_symbols) k = Some s /\
        forall j s', (j < k)%nat ->
                     nth_error (symbol :: Provider.alt_symbols) j = Some s' ->
                     history s' start_date = []
  | None =>
      forall s', In s' (symbol :: Provider.alt_symbols) ->
                 history s' start_date = []
  end.
Proof.
  unfold Provider.fetch_data, Provider.alt_symbols; simpl.
  destruct (history symbol start_date) as [|b0 l0] eqn:E0; simpl.
  - match goal with
    | |- context [history ?s1 start_date] =>
        destruct (history s1 start_date) as [|b1 l1] eqn:E1; simpl
    end.
    + match goal with
      | |- context [history ?s2 start_date] =>
          destruct (history s2 start_date) as [|b2 l2] eqn:E2; simpl
      end.
      * intros s' [<-|[<-|[<-|[]]]]; assumption.
      * split; [symmetry; exact E2|]. split; [discriminate|].
        split; [reflexivity|]. exists 2%nat. split; [reflexivity|].
        intros [|[|j]] s' Hj Hs'; simpl in Hs'; try lia;
          injection Hs' as <-; assumption.
    + split; [symmetry; exact E1|]. split; [discriminate|].
      split; [reflexivity|]. exists 1%nat. split; [reflexivity|].
      intros [|j] s' Hj Hs'; simpl in Hs'; try lia.
      injection Hs' as <-. assumption.
  - split; [symmetry; exact E0|]. split; [discriminate|].
    split; [reflexivity|]. exists 0%nat. split; [reflexivity|].
    intros j s' Hj. lia.
Qed.

(** ** Running again *)

(** A second run with the same parameters returns the same events and
    leaves the analyzer as the first run left it; a run with any other
    parameters returns after a first run what it returns without it. *)
Theorem second_run_changes_nothing thr h f self evs self' :
  identify_breakouts thr h f self = Some (evs, self') ->
  identify_breakouts thr h f self' = Some (evs, self') /\
  forall thr2 h2 f2,
    option_map fst (identify_breakouts thr2 h2 f2 self')
    = option_map fst (identify_breakouts thr2 h2 f2 self).
Proof.
  intros Hrun.
  pose proof (identify_breakouts_keeps_rows _ _ _ _ _ _ Hrun) as Hrows.
  split.
  - rewrite (identify_breakouts_rows thr h f self' self Hrows), Hrun.
    reflexivity.
  - intros thr2 h2 f2.
    rewrite (identify_breakouts_rows thr2 h2 f2 self' self Hrows).
    reflexivity.
Qed.

Lemma second_run_changes_nothing_witness :
  identify_breakouts 5 2 1 Sample.analyzer
    = Some (Sample.events, Sample.after) /\
  identify_breakouts 5 2 1 Sample.after = Some (Sample.events, Sample.after) /\
  option_map fst (identify_breakouts 6 0 0 Sample.after)
  = option_map fst (identify_breakouts 6 0 0 Sample.analyzer).
Proof.
  assert (Hrun : identify_breakouts 5 2 1 Sample.analyzer
                 = Some (Sample.events, Sample.after)) by reflexivity.
  destruct (second_run_changes_nothing 5 2 1 Sample.analyzer Sample.events
              Sample.after Hrun) as (Hsame & Hother).
  split; [exact Hrun|]. split; [exact Hsame|]. apply Hother.
Defined.

(** ** The scan, candidate by candidate *)

Lemma flat_map_filter_keys {A B : Type} (k : A -> list B) (p : A -> bool)
      (q : B -> bool) (l : list A) :
  (forall c e, In c l -> In e (k c) -> q e = p c) ->
  flat_map k (filter p l) = filter q (flat_map k l).
Proof.
  induction l as [|c l IH]; intros H; simpl; [reflexivity|].
  rewrite filter_app, <- IH by (intros c' e Hc'; apply H; right; exact Hc').
  assert (Hk : filter q (k c) = if p c then k c else []).
  { assert (Hc : forall e, In e (k c) -> q e = p c)
      by (intros e; apply H; left; reflexivity).
    induction (k c) as [|e es IHk]; simpl; [destruct (p c); reflexivity|].
    rewrite (Hc e) by (left; reflexivity).
    rewrite IHk by (intros e' He'; apply Hc; right; exact He').
    destruct (p c); reflexivity. }
  rewrite Hk. destruct (p c); reflexivity.
Qed.

Lemma flat_map_length_le {A B C : Type} (k1 : A -> list B) (k2 : A -> list C)
      (l : list A) :
  (forall c, In c l -> (length (k2 c) <= length (k1 c))%nat) ->
  (length (flat_map k2 l) <= length (flat_map k1 l))%nat.
Proof.
  induction l as [|c l IH]; intros H; simpl; [lia|].
  rewrite !length_app.
  specialize (H c (or_introl eq_refl)) as Hc.
  assert (length (flat_map k2 l) <= length (flat_map k1 l))%nat
    by (apply IH; intros c' Hc'; apply H; right; exact Hc').
  lia.
Qed.

Lemma map_flat_map_pointwise {A B C D : Type} (g1 : B -> D) (g2 : C -> D)
      (k1 : A -> list B) (k2 : A -> list C) (l : list A) :
  (forall c, In c l -> map g1 (k1 c) = map g2 (k2 c)) ->
  map g1 (flat_map k1 l) = map g2 (flat_map k2 l).
Proof.
  induction l as [|c l IH]; intros H; simpl; [reflexivity|].
  rewrite !map_app, (H c) by (left; reflexivity).
  rewrite IH by (intros c' Hc'; apply H; right; exact Hc').
  reflexivity.
Qed.

Lemma map_flat_map_single {A B D : Type} (g1 : B -> D) (g2 : A -> D)
      (k : A -> list B) (l : list A) :
  (forall c, In c l -> map g1 (k c) = [g2 c]) ->
  map g1 (flat_map k l) = map g2 l.
Proof.
  induction l as [|c l IH]; intros H; simpl; [reflexivity|].
  rewrite map_app, (H c) by (left; reflexivity).
  rewrite IH by (intros c' Hc'; apply H; right; exact Hc').
  reflexivity.
Qed.

Section Appended.

Variables h f : nat.
Variable df : DataFrame.

Lemma scan_appended (cands : list (Bar * Q)) (acc evs : list BreakoutEvent) :
  scan h f df cands acc = Some evs ->
  evs = acc ++ flat_map (appended h f df) cands.
Proof.
  revert acc; induction cands as [|c cands IH]; intros acc; simpl.
  - intros [= <-]. rewrite app_nil_r. reflexivity.
  - unfold appended at 1.
    destruct (analyze h f df c) as [[e|]|]; simpl; [| |discriminate];
      intros H; rewrite (IH _ H).
    + rewrite <- app_assoc. reflexivity.
    + reflexivity.
Qed.

Lemma scan_all_analyzed (cands : list (Bar * Q)) (acc evs : list BreakoutEvent) :
  scan h f df cands acc = Some evs ->
  forall c, In c cands -> analyze h f df c <> None.
Proof.
  intros Hscan c Hc Hnone.
  rewrite (scan_raises h f df cands acc c Hc Hnone) in Hscan. discriminate.
Qed.

Lemma scan_raised (cands : list (Bar * Q)) (acc : list BreakoutEvent) :
  scan h f df cands acc = None ->
  exists c, In c cands /\ analyze h f df c = None.
Proof.
  revert acc; induction cands as [|c cands IH]; intros acc; simpl;
    [discriminate|].
  destruct (analyze h f df c) as [[e|]|] eqn:E; simpl.
  - intros H. destruct (IH _ H) as (c' & Hc' & Hn). eauto.
  - intros H. destruct (IH _ H) as (c' & Hc' & Hn). eauto.
  - intros _. exists c. auto.
Qed.

(** What a candidate found at position [i] adds. *)
Lemma appended_at (bar : Bar) (r : Q) (i : nat) :
  get_loc (index df) (date bar) = Some i ->
  appended h f df (bar, r) =
  if held (rows df) i h (Low bar) then [event_at (rows df) h f i bar r]
  else [].
Proof.
  intros Hloc. unfold appended. rewrite (analyze_at h f df bar r i Hloc).
  destruct (held (rows df) i h (Low bar)); reflexivity.
Qed.

Lemma analyzed_found (c : Bar * Q) :
  analyze h f df c <> None ->
  exists i, get_loc (index df) (date (fst c)) = Some i.
Proof.
  intros H. destruct (analyze h f df c) as [res|] eqn:E; [|congruence].
  exact (analyze_found _ _ _ _ _ E).
Qed.

Lemma appended_fields (c : Bar * Q) (e : BreakoutEvent) :
  In e (appended h f df c) ->
  breakout_date e = date (fst c) /\
  breakout_price e = Low (fst c) /\
  breakout_return e = snd c.
Proof.
  destruct c as (bar & r). intros He.
  destruct (get_loc (index df) (date bar)) as [i|] eqn:Hloc.
  - rewrite (appended_at bar r i Hloc) in He.
    destruct (held (rows df) i h (Low bar)); [|destruct He].
    destruct He as [<-|[]].
    rewrite event_at_date, event_at_price, event_at_return. auto.
  - unfold appended in He.
    rewrite (analyze_raises h f df (bar, r) Hloc) in He. destruct He.
Qed.

End Appended.

(** The events of a run, in the order of the candidates. *)
Lemma identify_breakouts_events thr h f self evs self' :
  identify_breakouts thr h f self = Some (evs, self') ->
  evs = flat_map (appended h f (set_Daily_Return (data self)))
                 (select thr (rows (data self)) (daily_returns (data self))) /\
  forall c,
    In c (select thr (rows (data self)) (daily_returns (data self))) ->
    exists i,
      get_loc (index (data self)) (date (fst c)) = Some i /\
      nth_error (rows (data self)) i = Some (fst c) /\
      nth_error (daily_returns (data self)) i = Some (Some (snd c)).
Proof.
  rewrite identify_breakouts_scan.
  destruct (scan _ _ _ _ _) as [evs0|] eqn:Hscan; simpl; [|discriminate].
  intros [= <- _]. split.
  - exact (scan_appended _ _ _ _ _ _ Hscan).
  - intros (bar & r) Hc.
    destruct (analyzed_found _ _ _ _ (scan_all_analyzed _ _ _ _ _ _ Hscan _ Hc))
      as (i' & Hloc).
    apply select_In in Hc. destruct Hc as (i & Hb & Hr & _).
    assert (i = i') as <-.
    { apply (proj1 (get_loc_Some _ _ _) Hloc).
      apply (nth_error_index (set_Daily_Return (data self))). exact Hb. }
    exists i. auto.
Qed.

(** A run over candidates that are all found returns. *)
Lemma identify_breakouts_found thr h f self :
  (forall c,
      In c (select thr (rows (data self)) (daily_returns (data self))) ->
      exists i, get_loc (index (data self)) (date (fst c)) = Some i) ->
  exists evs,
    identify_breakouts thr h f self =
    Some (evs, mkAnalyzer (set_Daily_Return (data self)) (Some evs)).
Proof.
  intros Hfound. rewrite identify_breakouts_scan.
  destruct (scan_returns h f (set_Daily_Return (data self))
              (select thr (rows (data self)) (daily_returns (data self))) [])
    as (evs & Hscan).
  - intros (bar & r) Hc. destruct (Hfound _ Hc) as (i & Hloc).
    rewrite (analyze_at h f (set_Daily_Return (data self)) bar r i Hloc).
    discriminate.
  - exists evs. rewrite Hscan. reflexivity.
Qed.

(** ** Changing one parameter *)

Lemma select_raise (thr1 thr2 : Q) (bs : list Bar) (col : list cell) :
  thr1 <= thr2 ->
  select thr2 bs col
  = filter (fun c => Qle_bool thr2 (snd c)) (select thr1 bs col).
Proof.
  intros Hle. revert col; induction bs as [|b bs IH]; intros col; simpl;
    [reflexivity|].
  destruct col as [|[r|] col]; simpl; [reflexivity| |apply IH].
  destruct (Qle_bool thr2 r) eqn:E2.
  - assert (E1 : Qle_bool thr1 r = true).
    { apply Qle_bool_iff. apply Qle_bool_iff in E2.
      exact (Qle_trans _ _ _ Hle E2). }
    rewrite E1. simpl. rewrite E2, IH. reflexivity.
  - destruct (Qle_bool thr1 r); simpl; [rewrite E2|]; apply IH.
Qed.

Lemma identify_breakouts_raise thr1 thr2 h f self evs1 self1 :
  thr1 <= thr2 ->
  identify_breakouts thr1 h f self = Some (evs1, self1) ->
  let evs2 := filter (fun e => Qle_bool thr2 (breakout_return e)) evs1 in
  identify_breakouts thr2 h f self
  = Some (evs2, mkAnalyzer (data self1) (Some evs2)).
Proof.
  intros Hle Hrun evs2.
  destruct (identify_breakouts_events _ _ _ _ _ _ Hrun) as (Hevs & Hfound).
  destruct (identify_breakouts_found thr2 h f self) as (evs & Hrun2).
  { intros c Hc. rewrite (select_raise thr1 thr2 _ _ Hle) in Hc.
    apply filter_In in Hc. destruct (Hfound c (proj1 Hc)) as (i & Hloc & _).
    eauto. }
  destruct (identify_breakouts_events _ _ _ _ _ _ Hrun2) as (Hevs2 & _).
  assert (evs = evs2) as ->.
  { subst evs2. rewrite Hevs2, Hevs, (select_raise thr1 thr2 _ _ Hle).
    apply flat_map_filter_keys.
    intros c e _ He. simpl.
    destruct (appended_fields _ _ _ _ _ He) as (_ & _ & ->). reflexivity. }
  rewrite Hrun2, (identify_breakouts_state _ _ _ _ _ _ Hrun). reflexivity.
Qed.

(** Raising the threshold: when the run with the lower threshold returns,
    the run with the higher one returns those of its events whose
    breakout return reaches the higher threshold, in the same order, and
    nothing else. *)
Theorem raising_threshold_filters thr1 thr2 h f self evs1 self1 :
  thr1 <= thr2 ->
  identify_breakouts thr1 h f self = Some (evs1, self1) ->
  let evs2 := filter (fun e => Qle_bool thr2 (breakout_return e)) evs1 in
  identify_breakouts thr2 h f self
  = Some (evs2, mkAnalyzer (data self1) (Some evs2)).
Proof.
  intros Hle Hrun. exact (identify_breakouts_raise _ _ _ _ _ _ _ Hle Hrun).
Qed.

Lemma raising_threshold_filters_witness :
  identify_breakouts 5 0 0 Sample.analyzer
    = Some (Sample.events0, Sample.after0) /\
  identify_breakouts 6 0 0 Sample.analyzer
    = Some (Sample.events0, Sample.after0) /\
  identify_breakouts 7 0 0 Sample.analyzer
    = Some ([], mkAnalyzer (data Sample.after0) (Some [])).
Proof.
  assert (Hrun : identify_breakouts 5 0 0 Sample.analyzer
                 = Some (Sample.events0, Sample.after0)) by reflexivity.
  assert (H56 : 5 <= 6) by (apply Qle_bool_iff; reflexivity).
  assert (H57 : 5 <= 7) by (apply Qle_bool_iff; reflexivity).
  split; [exact Hrun|]. split.
  - exact (raising_threshold_filters 5 6 0 0 Sample.analyzer _ _ H56 Hrun).
  - exact (raising_threshold_filters 5 7 0 0 Sample.analyzer _ _ H57 Hrun).
Defined.

Lemma held_shorter (bs : list Bar) (i h1 h2 : nat) (p : Q) :
  (h1 <= h2)%nat -> held bs i h2 p = true -> held bs i h1 p = true.
Proof.
  intros Hh H. apply held_spec. intros j Hj.
  apply (proj1 (held_spec _ _ _ _) H). lia.
Qed.

Lemma event_at_outcome bs h1 h2 f i bar r :
  outcome_part (event_at bs h1 f i bar r)
  = outcome_part (event_at bs h2 f i bar r).
Proof.
  unfold outcome_part, event_at.
  destruct (nth_error bs (i + f)); reflexivity.
Qed.

Lemma event_at_detection bs h f1 f2 i bar r :
  detection_part (event_at bs h f1 i bar r)
  = detection_part (event_at bs h f2 i bar r).
Proof.
  unfold detection_part, event_at.
  destruct (nth_error bs (i + f1)), (nth_error bs (i + f2)); reflexivity.
Qed.

(** Lengthening the hold window: when the run with the shorter window
    returns, so does the run with the longer one, with no more events, and
    each of its events is one of the shorter run, same day, same prices,
    same outcome. *)
Theorem longer_hold_reports_fewer thr h1 h2 f self evs1 self1 :
  (h1 <= h2)%nat ->
  identify_breakouts thr h1 f self = Some (evs1, self1) ->
  exists evs2 self2,
    identify_breakouts thr h2 f self = Some (evs2, self2) /\
    (length evs2 <= length evs1)%nat /\
    forall e2, In e2 evs2 ->
               exists e1, In e1 evs1 /\ outcome_part e1 = outcome_part e2.
Proof.
  intros Hh Hrun.
  destruct (identify_breakouts_events _ _ _ _ _ _ Hrun) as (Hevs & Hfound).
  destruct (identify_breakouts_found thr h2 f self) as (evs2 & Hrun2).
  { intros c Hc. destruct (Hfound c Hc) as (i & Hloc & _). eauto. }
  destruct (identify_breakouts_events _ _ _ _ _ _ Hrun2) as (Hevs2 & _).
  exists evs2, (mkAnalyzer (set_Daily_Return (data self)) (Some evs2)).
  split; [exact Hrun2|]. split.
  - rewrite Hevs, Hevs2. apply flat_map_length_le.
    intros (bar & r) Hc. destruct (Hfound _ Hc) as (i & Hloc & _).
    simpl in Hloc.
    rewrite (appended_at h1 f (set_Daily_Return (data self)) bar r i Hloc),
            (appended_at h2 f (set_Daily_Return (data self)) bar r i Hloc).
    simpl.
    destruct (held (rows (data self)) i h2 (Low bar)) eqn:H2; [|simpl; lia].
    rewrite (held_shorter _ _ _ _ _ Hh H2). simpl. lia.
  - intros e2 He2. rewrite Hevs2 in He2. apply in_flat_map in He2.
    destruct He2 as ((bar & r) & Hc & He2).
    destruct (Hfound _ Hc) as (i & Hloc & _). simpl in Hloc.
    rewrite (appended_at h2 f (set_Daily_Return (data self)) bar r i Hloc)
      in He2. simpl in He2.
    destruct (held (rows (data self)) i h2 (Low bar)) eqn:H2; [|destruct He2].
    destruct He2 as [<-|[]].
    exists (event_at (rows (data self)) h1 f i bar r). split.
    + rewrite Hevs. apply in_flat_map. exists (bar, r). split; [exact Hc|].
      rewrite (appended_at h1 f (set_Daily_Return (data self)) bar r i Hloc).
      simpl. rewrite (held_shorter _ _ _ _ _ Hh H2). left; reflexivity.
    + apply event_at_outcome.
Qed.

Lemma longer_hold_reports_fewer_witness :
  identify_breakouts 5 0 1 Sample.analyzer <> None /\
  exists e1,
    In e1 (fst (Sample.run 5 0 1)) /\
    outcome_part e1 = outcome_part Sample.event.
Proof.
  destruct (identify_breakouts 5 0 1 Sample.analyzer) as [[evs1 self1]|] eqn:E;
    [|vm_compute in E; discriminate E].
  split; [discriminate|].
  destruct (longer_hold_reports_fewer 5 0 2 1 Sample.analyzer evs1 self1
              (Nat.le_0_l 2) E) as (evs2 & self2 & Hrun2 & _ & Hin).
  assert (Hrun0 : identify_breakouts 5 2 1 Sample.analyzer
                  = Some (Sample.events, Sample.after)) by reflexivity.
  rewrite Hrun0 in Hrun2. injection Hrun2 as <- <-.
  destruct (Hin Sample.event (or_introl eq_refl)) as (e1 & He1 & Hsame).
  exists e1. split; [|exact Hsame].
  unfold Sample.run. rewrite E. exact He1.
Defined.

(** The horizon decides the outcome only: when a run returns, the run
    with any other number of future days returns events on the same
    days, with the same breakout prices, breakout returns and hold-period
    prices, in the same order. *)
Theorem horizon_keeps_detection thr h f1 f2 self evs1 self1 :
  identify_breakouts thr h f1 self = Some (evs1, self1) ->
  exists evs2 self2,
    identify_breakouts thr h f2 self = Some (evs2, self2) /\
    map detection_part evs2 = map detection_part evs1.
Proof.
  intros Hrun.
  destruct (identify_breakouts_events _ _ _ _ _ _ Hrun) as (Hevs & Hfound).
  destruct (identify_breakouts_found thr h f2 self) as (evs2 & Hrun2).
  { intros c Hc. destruct (Hfound c Hc) as (i & Hloc & _). eauto. }
  destruct (identify_breakouts_events _ _ _ _ _ _ Hrun2) as (Hevs2 & _).
  exists evs2, (mkAnalyzer (set_Daily_Return (data self)) (Some evs2)).
  split; [exact Hrun2|].
  rewrite Hevs, Hevs2. apply map_flat_map_pointwise.
  intros (bar & r) Hc. destruct (Hfound _ Hc) as (i & Hloc & _).
  simpl in Hloc.
  rewrite (appended_at h f1 (set_Daily_Return (data self)) bar r i Hloc),
          (appended_at h f2 (set_Daily_Return (data self)) bar r i Hloc).
  simpl. destruct (held (rows (data self)) i h (Low bar)); [|reflexivity].
  simpl. f_equal. apply event_at_detection.
Qed.

Lemma horizon_keeps_detection_witness :
  identify_breakouts 5 2 1 Sample.analyzer
    = Some (Sample.events, Sample.after) /\
  map detection_part Sample.events4 = map detection_part Sample.events.
Proof.
  assert (Hrun : identify_breakouts 5 2 1 Sample.analyzer
                 = Some (Sample.events, Sample.after)) by reflexivity.
  destruct (horizon_keeps_detection 5 2 1 4 Sample.analyzer _ _ Hrun)
    as (evs2 & self2 & Hrun2 & Hsame).
  assert (Hrun4 : identify_breakouts 5 2 4 Sample.analyzer
                  = Some (Sample.events4, Sample.after4)) by reflexivity.
  rewrite Hrun4 in Hrun2. injection Hrun2 as <- <-.
  split; [exact Hrun|exact Hsame].
Defined.

(** Without hold days every candidate is reported: the events of a run
    with [hold_days = 0] are, in order, the days whose return reaches the
    threshold, each with its low as breakout price and its return. *)
Theorem no_hold_reports_every_candidate thr f self evs self' :
  identify_breakouts thr 0 f self = Some (evs, self') ->
  exists cands,
    breakout_candidates thr (data self') = Some cands /\
    map (fun e => (breakout_date e, breakout_price e, breakout_return e)) evs
    = map (fun c => (date (fst c), Low (fst c), snd c)) cands.
Proof.
  intros Hrun.
  destruct (identify_breakouts_events _ _ _ _ _ _ Hrun) as (Hevs & Hfound).
  rewrite (identify_breakouts_state _ _ _ _ _ _ Hrun).
  eexists. split; [reflexivity|]. simpl.
  rewrite Hevs. apply map_flat_map_single.
  intros (bar & r) Hc. destruct (Hfound _ Hc) as (i & Hloc & _).
  simpl in Hloc.
  rewrite (appended_at 0 f (set_Daily_Return (data self)) bar r i Hloc).
  simpl. rewrite event_at_date, event_at_price, event_at_return.
  reflexivity.
Qed.

Lemma no_hold_reports_every_candidate_witness :
  identify_breakouts 6 0 0 Sample.analyzer
    = Some (Sample.events0, Sample.after0) /\
  exists cands,
    breakout_candidates 6 (data Sample.after0) = Some cands /\
    map (fun e => (breakout_date e, breakout_price e, breakout_return e))
        Sample.events0
    = map (fun c => (date (fst c), Low (fst c), snd c)) cands.
Proof.
  assert (Hrun : identify_breakouts 6 0 0 Sample.analyzer
                 = Some (Sample.events0, Sample.after0)) by reflexivity.
  split; [exact Hrun|].
  exact (no_hold_reports_every_candidate 6 0 Sample.analyzer _ _ Hrun).
Defined.

(** ** Dates in ascending order *)

Lemma sorted_nth (l : list Z) :
  StronglySorted Z.lt l ->
  forall i j a b,
    nth_error l i = Some a -> nth_error l j = Some b ->
    (i < j)%nat -> (a < b)%Z.
Proof.
  induction 1 as [|x l Hs IH Hall]; intros i j a b Hi Hj Hlt.
  - destruct i; discriminate.
  - destruct j as [|j]; [lia|]. simpl in Hj.
    destruct i as [|i]; simpl in Hi.
    + injection Hi as <-.
      apply (proj1 (Forall_forall _ _) Hall). eapply nth_error_In; eauto.
    + apply (IH i j); auto. lia.
Qed.

Lemma sorted_positions (l : list Z) (i j : nat) (a b : Z) :
  StronglySorted Z.lt l ->
  nth_error l i = Some a -> nth_error l j = Some b ->
  (a < b)%Z -> (i < j)%nat.
Proof.
  intros Hs Hi Hj Hab.
  destruct (Nat.lt_trichotomy i j) as [Hlt|[->|Hgt]]; [exact Hlt| |].
  - rewrite Hi in Hj. injection Hj as ->. lia.
  - pose proof (sorted_nth l Hs j i b a Hj Hi Hgt). lia.
Qed.

Lemma sorted_NoDup (l : list Z) : StronglySorted Z.lt l -> NoDup l.
Proof.
  induction 1 as [|x l Hs IH Hall]; constructor; [|exact IH].
  intros Hin. apply (proj1 (Forall_forall _ _) Hall) in Hin. lia.
Qed.

Lemma sorted_select (thr : Q) (bs : list Bar) (col : list cell) :
  StronglySorted Z.lt (map date bs) ->
  StronglySorted Z.lt (map (fun c => date (fst c)) (select thr bs col)).
Proof.
  revert col; induction bs as [|b bs IH]; intros col Hs; simpl;
    [constructor|].
  apply StronglySorted_inv in Hs. destruct Hs as (Hs & Hall).
  destruct col as [|[r|] col]; simpl; [constructor| |apply IH; exact Hs].
  destruct (Qle_bool thr r); simpl; [|apply IH; exact Hs].
  constructor; [apply IH; exact Hs|].
  apply Forall_forall. intros d Hd. apply in_map_iff in Hd.
  destruct Hd as ((b' & r') & <- & Hc). simpl.
  apply select_In in Hc. destruct Hc as (i & Hb' & _).
  apply (proj1 (Forall_forall _ _) Hall).
  apply in_map. eapply nth_error_In; eauto.
Qed.

Lemma sorted_flat_map {A B : Type} (g : A -> Z) (g' : B -> Z)
      (k : A -> list B) (l : list A) :
  (forall c e, In e (k c) -> g' e = g c) ->
  (forall c, (length (k c) <= 1)%nat) ->
  StronglySorted Z.lt (map g l) ->
  StronglySorted Z.lt (map g' (flat_map k l)).
Proof.
  intros Hkey Hone. induction l as [|c l IH]; intros Hs; simpl;
    [constructor|].
  apply StronglySorted_inv in Hs. destruct Hs as (Hs & Hall).
  specialize (IH Hs). rewrite map_app.
  pose proof (Hone c) as Hlen. pose proof (Hkey c) as Hc.
  destruct (k c) as [|e [|e' es]]; simpl in *; [exact IH| |lia].
  constructor; [exact IH|].
  apply Forall_forall. intros d Hd. apply in_map_iff in Hd.
  destruct Hd as (e2 & <- & He2). apply in_flat_map in He2.
  destruct He2 as (c2 & Hc2 & He2).
  rewrite (Hc e (or_introl eq_refl)), (Hkey c2 e2 He2).
  apply (proj1 (Forall_forall _ _) Hall). apply in_map. exact Hc2.
Qed.

Lemma appended_at_most_one h f df c : (length (appended h f df c) <= 1)%nat.
Proof.
  unfold appended. destruct (analyze h f df c) as [[e|]|]; simpl; lia.
Qed.

(** With the dates of the series in strictly ascending order the run
    returns, and the breakout dates of its events are strictly ascending:
    the events are in chronological order, at most one per day. *)
Theorem events_in_date_order thr h f self :
  StronglySorted Z.lt (index (data self)) ->
  exists evs self',
    identify_breakouts thr h f self = Some (evs, self') /\
    StronglySorted Z.lt (map breakout_date evs).
Proof.
  intros Hs.
  destruct (identify_breakouts_returns thr h f self (sorted_NoDup _ Hs))
    as (evs & Hrun).
  eexists _, _. split; [exact Hrun|].
  destruct (identify_breakouts_events _ _ _ _ _ _ Hrun) as (-> & _).
  apply (sorted_flat_map (fun c : Bar * Q => date (fst c))).
  - intros c e He. exact (proj1 (appended_fields _ _ _ _ _ He)).
  - intros c. apply appended_at_most_one.
  - apply sorted_select. exact Hs.
Qed.

Lemma Cases_recent_sorted : StronglySorted Z.lt (index (data Cases.recent)).
Proof.
  unfold index; simpl.
  repeat (constructor; [|repeat (constructor; [reflexivity|]); constructor]).
  constructor.
Qed.

Lemma events_in_date_order_witness :
  identify_breakouts 5 1 10 Cases.recent
    = Some (Cases.recent_events, Cases.recent_after) /\
  StronglySorted Z.lt (map breakout_date Cases.recent_events).
Proof.
  destruct (events_in_date_order 5 1 10 Cases.recent Cases_recent_sorted)
    as (evs & self' & Hrun & Hsorted).
  assert (Hrun0 : identify_breakouts 5 1 10 Cases.recent
                  = Some (Cases.recent_events, Cases.recent_after))
    by reflexivity.
  rewrite Hrun0 in Hrun. injection Hrun as <- <-.
  split; [exact Hrun0|exact Hsorted].
Defined.

(** With the dates in strictly ascending order the pending events are the
    latest ones: an event dated after a pending event is pending too, so
    no completed event follows a pending one. *)
Theorem pending_events_are_latest thr h f self evs self' e1 e2 :
  StronglySorted Z.lt (index (data self)) ->
  identify_breakouts thr h f self = Some (evs, self') ->
  In e1 evs -> In e2 evs ->
  status e1 = pending ->
  (breakout_date e1 < breakout_date e2)%Z ->
  status e2 = pending.
Proof.
  intros Hs Hrun He1 He2 Hp Hlt.
  apply (identify_breakouts_In _ _ _ _ _ _ Hrun) in He1, He2.
  destruct He1 as (i1 & b1 & r1 & Hb1 & _ & _ & _ & _ & ->).
  destruct He2 as (i2 & b2 & r2 & Hb2 & _ & _ & _ & _ & ->).
  rewrite !event_at_date in Hlt.
  assert (Hpos : (i1 < i2)%nat).
  { apply (sorted_positions _ i1 i2 _ _ Hs
             (nth_error_index _ _ _ Hb1) (nth_error_index _ _ _ Hb2) Hlt). }
  unfold event_at in *.
  destruct (nth_error (rows (data self)) (i1 + f)) eqn:E1; simpl in Hp;
    [discriminate|].
  apply nth_error_None in E1.
  assert (E2 : nth_error (rows (data self)) (i2 + f) = None)
    by (apply nth_error_None; lia).
  rewrite E2. reflexivity.
Qed.

Lemma pending_events_are_latest_witness :
  identify_breakouts 5 1 10 Cases.recent
    = Some (Cases.recent_events, Cases.recent_after) /\
  status Cases.recent_first = pending /\
  (breakout_date Cases.recent_first < breakout_date Cases.recent_second)%Z /\
  status Cases.recent_second = pending.
Proof.
  assert (Hrun : identify_breakouts 5 1 10 Cases.recent
                 = Some (Cases.recent_events, Cases.recent_after))
    by reflexivity.
  assert (H1 : In Cases.recent_first Cases.recent_events)
    by (left; reflexivity).
  assert (H2 : In Cases.recent_second Cases.recent_events)
    by (right; left; reflexivity).
  assert (Hlt : (breakout_date Cases.recent_first
                 < breakout_date Cases.recent_second)%Z) by reflexivity.
  split; [exact Hrun|]. split; [reflexivity|]. split; [exact Hlt|].
  exact (pending_events_are_latest 5 1 10 Cases.recent _ _ _ _
           Cases_recent_sorted Hrun H1 H2 eq_refl Hlt).
Defined.

(** ** When a run raises *)

Lemma get_loc_repeated (ds : list Z) (d : Z) (i : nat) :
  nth_error ds i = Some d ->
  get_loc ds d = None ->
  exists j, j <> i /\ nth_error ds j = Some d.
Proof.
  intros Hi Hnone. unfold get_loc in Hnone.
  assert (Hin : In i (positions d ds 0))
    by (apply positions_In; exists i; auto).
  pose proof (positions_NoDup d ds 0) as Hnd.
  assert (Hnth : forall q, In q (positions d ds 0) -> nth_error ds q = Some d).
  { intros q Hq. apply positions_In in Hq. destruct Hq as (j & -> & H).
    exact H. }
  destruct (positions d ds 0) as [|p0 [|p1 l]]; [destruct Hin|discriminate|].
  inversion Hnd as [|? ? Hnotin _]; subst.
  destruct (Nat.eq_dec p0 i) as [->|Hne].
  - exists p1. split.
    + intros ->. apply Hnotin. left; reflexivity.
    + apply Hnth. right; left; reflexivity.
  - exists p0. split; [exact Hne|]. apply Hnth. left; reflexivity.
Qed.

(** The run raises exactly when the date of a candidate day (a day whose
    return reaches the threshold) is also the date of another row of the
    series. *)
Theorem run_raises_on_repeated_date thr h f self :
  identify_breakouts thr h f self = None <->
  exists i j bar other r,
    nth_error (rows (data self)) i = Some bar /\
    nth_error (daily_returns (data self)) i = Some (Some r) /\
    thr <= r /\
    j <> i /\
    nth_error (rows (data self)) j = Some other /\
    date other = date bar.
Proof.
  rewrite identify_breakouts_scan. split.
  - destruct (scan _ _ _ _ _) as [evs|] eqn:Hscan; [discriminate|].
    intros _. apply scan_raised in Hscan.
    destruct Hscan as ((bar & r) & Hc & Hnone).
    apply select_In in Hc. destruct Hc as (i & Hb & Hr & Hle).
    destruct (get_loc (index (set_Daily_Return (data self))) (date bar))
      as [p|] eqn:Hloc.
    { rewrite (analyze_at h f _ bar r p Hloc) in Hnone. discriminate. }
    destruct (get_loc_repeated _ _ i
                (nth_error_index (set_Daily_Return (data self)) _ _ Hb) Hloc)
      as (j & Hne & Hj).
    unfold index in Hj. rewrite nth_error_map in Hj. simpl in Hj.
    destruct (nth_error (rows (data self)) j) as [other|] eqn:Ho;
      [|discriminate].
    injection Hj as Hd.
    exists i, j, bar, other, r. apply Qle_bool_iff in Hle. auto 10.
  - intros (i & j & bar & other & r & Hb & Hr & Hle & Hne & Ho & Hd).
    assert (Hloc : get_loc (index (set_Daily_Return (data self))) (date bar)
                   = None).
    { destruct (get_loc _ _) as [p|] eqn:Hloc; [|reflexivity].
      apply get_loc_Some in Hloc. destruct Hloc as (_ & Huniq).
      exfalso. apply Hne.
      rewrite (Huniq i (nth_error_index (set_Daily_Return (data self)) _ _ Hb)).
      apply Huniq. rewrite <- Hd.
      apply (nth_error_index (set_Daily_Return (data self))). exact Ho. }
    rewrite (scan_raises h f _ _ [] (bar, r)); [reflexivity| |].
    + apply select_In. exists i. apply Qle_bool_iff in Hle. auto.
    + apply analyze_raises. exact Hloc.
Qed.

Lemma run_raises_on_repeated_date_witness :
  identify_breakouts 5 0 0 Cases.repeated = None.
Proof.
  apply (proj2 (run_raises_on_repeated_date 5 0 0 Cases.repeated)).
  exists 1%nat, 2%nat, (Sample.flat 1 106), (Sample.flat 1 107),
         Sample.rise.
  split; [reflexivity|]. split; [reflexivity|].
  split; [apply Qle_bool_iff; reflexivity|].
  split; [discriminate|]. split; reflexivity.
Defined.

(** ** Winners and returns *)

Lemma Qdiv_pos_iff (a b : Q) : 0 < b -> (0 < a / b * 100 <-> 0 < a).
Proof.
  intros Hb. split.
  - intros H.
    destruct (Qlt_le_dec 0 a) as [Ha|Ha]; [exact Ha|exfalso].
    assert (Hq : a / b <= 0).
    { apply Qle_shift_div_r; [exact Hb|]. rewrite Qmult_0_l. exact Ha. }
    assert (H100 : a / b * 100 <= 0).
    { rewrite <- (Qmult_0_l 100). apply Qmult_le_compat_r; [exact Hq|].
      discriminate. }
    exact (Qlt_not_le _ _ H H100).
  - intros Ha.
    assert (Hq : 0 < a / b).
    { apply Qlt_shift_div_l; [exact Hb|]. rewrite Qmult_0_l. exact Ha. }
    rewrite <- (Qmult_0_l 100). apply Qmult_lt_compat_r; [reflexivity|exact Hq].
Qed.

(** For a completed event with a positive breakout price, the winner flag
    and the sign of the future return agree: the event is a winner exactly
    when its future return is positive. *)
Theorem winner_iff_positive_return thr h f self evs self' e :
  identify_breakouts thr h f self = Some (evs, self') ->
  In e evs ->
  status e = completed ->
  0 < breakout_price e ->
  exists fr,
    future_return e = Some fr /\
    (is_winner e = Some true <-> 0 < fr) /\
    (is_winner e = Some false <-> fr <= 0).
Proof.
  intros Hrun He Hs Hpos.
  apply (identify_breakouts_In _ _ _ _ _ _ Hrun) in He.
  destruct He as (i & bar & r & _ & _ & _ & _ & _ & ->).
  unfold event_at in *.
  destruct (nth_error (rows (data self)) (i + f)) as [b|]; simpl in *;
    [|discriminate].
  eexists. split; [reflexivity|].
  assert (Hiff : Qltb (Low bar) (Close b) = true
                 <-> 0 < (Close b - Low bar) / Low bar * 100).
  { rewrite Qltb_lt, (Qdiv_pos_iff _ _ Hpos).
    rewrite <- (Qlt_minus_iff (Low bar) (Close b)). reflexivity. }
  split.
  - rewrite <- Hiff. split; congruence.
  - split.
    + intros Hw. apply Qnot_lt_le. intros Hgt. apply Hiff in Hgt. congruence.
    + intros Hle. f_equal.
      destruct (Qltb (Low bar) (Close b)) eqn:E; [|reflexivity].
      exfalso. apply (Qlt_not_le _ _ (proj1 Hiff eq_refl) Hle).
Qed.

Lemma winner_iff_positive_return_witness :
  identify_breakouts 5 2 1 Sample.analyzer
    = Some (Sample.events, Sample.after) /\
  0 < breakout_price Sample.event /\
  exists fr, future_return Sample.event = Some fr /\ 0 < fr.
Proof.
  assert (Hrun : identify_breakouts 5 2 1 Sample.analyzer
                 = Some (Sample.events, Sample.after)) by reflexivity.
  assert (He : In Sample.event Sample.events) by (left; reflexivity).
  assert (Hpos : 0 < breakout_price Sample.event) by reflexivity.
  destruct (winner_iff_positive_return 5 2 1 Sample.analyzer _ _ _
              Hrun He eq_refl Hpos) as (fr & Hfr & Hwin & _).
  split; [exact Hrun|]. split; [exact Hpos|].
  exists fr. split; [exact Hfr|]. apply Hwin. reflexivity.
Defined.

(** ** Counts and rates *)

Lemma with_status_split (evs : list BreakoutEvent) :
  (length (with_status completed evs) + length (with_status pending evs))%nat
  = length evs.
Proof.
  unfold with_status. induction evs as [|e evs IH]; simpl; [reflexivity|].
  destruct (status e); simpl; lia.
Qed.

Lemma winner_sum_le (evs : list BreakoutEvent) :
  (winner_sum evs <= length evs)%nat.
Proof. unfold winner_sum. apply filter_length_le. Qed.

Lemma of_nat_le (a b : nat) : (a <= b)%nat -> of_nat a <= of_nat b.
Proof.
  intros H. unfold of_nat. rewrite <- Zle_Qle. lia.
Qed.

Lemma of_nat_pos (n : nat) : (0 < n)%nat -> 0 < of_nat n.
Proof.
  intros H. unfold of_nat. change 0 with (inject_Z 0).
  rewrite <- Zlt_Qlt. lia.
Qed.

Lemma rate_bounds (wins n : nat) :
  (wins <= n)%nat -> (0 < n)%nat -> 0 <= rate wins n <= 100.
Proof.
  intros Hle Hn. unfold rate. pose proof (of_nat_pos n Hn) as Hpos.
  split.
  - apply Qmult_le_0_compat; [|discriminate].
    apply Qle_shift_div_l; [exact Hpos|].
    rewrite Qmult_0_l. apply (of_nat_le 0 wins). lia.
  - assert (H1 : of_nat wins / of_nat n <= 1).
    { apply Qle_shift_div_r; [exact Hpos|].
      rewrite Qmult_1_l. apply of_nat_le. exact Hle. }
    setoid_replace 100 with (1 * 100) at 2 by reflexivity.
    apply Qmult_le_compat_r; [exact H1|discriminate].
Qed.

(** The figures of the chart title add up: completed and pending events
    together are all the events, the wins are among the completed events,
    and the win rate lies between 0 and 100; there are figures exactly
    when there is an event to plot. *)
Theorem title_figures_add_up self :
  match plot_breakouts_stats self with
  | Some st =>
      exists evs,
        breakouts self = Some evs /\ evs <> [] /\
        (completed_count st + pending_count st)%nat = length evs /\
        (win_count st <= completed_count st)%nat /\
        0 <= win_rate st <= 100
  | None => breakouts self = None \/ breakouts self = Some []
  end.
Proof.
  unfold plot_breakouts_stats.
  destruct (breakouts self) as [evs|]; [|left; reflexivity].
  destruct evs as [|e0 evs0]; [right; reflexivity|].
  set (evs := e0 :: evs0).
  change ((length evs =? 0)%nat) with false. cbv iota.
  pose proof (with_status_split evs) as Hsplit.
  destruct (Nat.ltb_spec 0 (length (with_status completed evs))) as [Hpos|Hz].
  - exists evs. cbn [completed_count pending_count win_count win_rate].
    pose proof (winner_sum_le (with_status completed evs)) as Hw.
    split; [reflexivity|]. split; [discriminate|].
    split; [exact Hsplit|]. split; [exact Hw|].
    apply rate_bounds; assumption.
  - exists evs. cbn [completed_count pending_count win_count win_rate].
    split; [reflexivity|]. split; [discriminate|].
    split; [lia|]. split; [lia|].
    split; [apply Qle_refl|apply Qle_bool_iff; reflexivity].
Qed.

(** ** Chart colours *)

Lemma colour_counts (evs : list BreakoutEvent) :
  count_color green (map color_of evs)
    = winner_sum (with_status completed evs) /\
  count_color orange (map color_of evs) = length (with_status pending evs) /\
  (count_color red (map color_of evs)
   + winner_sum (with_status completed evs))%nat
    = length (with_status completed evs).
Proof.
  unfold count_color, winner_sum, with_status, color_of.
  induction evs as [|e evs (IHg & IHo & IHr)]; simpl; [auto|].
  destruct (status e); simpl.
  - destruct (is_true (is_winner e)); simpl; repeat split; lia.
  - repeat split; lia.
Qed.

(** The chart agrees with its title: one colour per event, as many green
    marks as wins, as many orange marks as pending events, and the red
    marks are the completed events that did not win. *)
Theorem chart_colours_match_title self st :
  plot_breakouts_stats self = Some st ->
  exists cols,
    plot_breakouts_colors self = Some cols /\
    length cols = (completed_count st + pending_count st)%nat /\
    count_color green cols = win_count st /\
    count_color orange cols = pending_count st /\
    (count_color red cols + win_count st)%nat = completed_count st.
Proof.
  unfold plot_breakouts_stats, plot_breakouts_colors.
  destruct (breakouts self) as [evs|]; [|discriminate].
  destruct (length evs =? 0)%nat; [discriminate|].
  destruct (colour_counts evs) as (Hg & Ho & Hr).
  pose proof (with_status_split evs) as Hsplit.
  destruct (Nat.ltb_spec 0 (length (with_status completed evs))) as [Hpos|Hz];
    intros [= <-]; simpl; eexists; (split; [reflexivity|]);
    rewrite length_map.
  - repeat split; auto.
  - pose proof (winner_sum_le (with_status completed evs)).
    repeat split; auto; lia.
Qed.

Lemma chart_colours_match_title_witness :
  exists st,
    plot_breakouts_stats Sample.long_after = Some st /\
    plot_breakouts_colors Sample.long_after = Some [green; orange] /\
    win_count st = 1%nat /\ pending_count st = 1%nat.
Proof.
  destruct (plot_breakouts_stats Sample.long_after) as [st|] eqn:E;
    [|vm_compute in E; discriminate E].
  destruct (chart_colours_match_title Sample.long_after st E)
    as (cols & Hcols & _ & Hg & Ho & _).
  assert (Hc : plot_breakouts_colors Sample.long_after
               = Some [green; orange]) by reflexivity.
  rewrite Hc in Hcols. injection Hcols as <-.
  exists st. split; [reflexivity|]. split; [exact Hc|].
  split; [symmetry; exact Hg|symmetry; exact Ho].
Defined.

(** ** The sweep table *)

Lemma all_completed (evs : list BreakoutEvent) :
  with_status pending evs = [] -> with_status completed evs = evs.
Proof.
  unfold with_status. induction evs as [|e evs IH]; simpl; [reflexivity|].
  destruct (status e); simpl; [|discriminate].
  intros H. rewrite (IH H). reflexivity.
Qed.

(** For a collection without pending events the row of the sweep shows
    the figures of the summary that [identify_breakouts] prints: the same
    wins, win rate, average, minimum, maximum and deviation of the future
    return, and as many breakouts as completed events. *)
Theorem sweep_row_agrees_without_pending t evs :
  evs <> [] ->
  with_status pending evs = [] ->
  exists cs,
    completed_stats evs = Some cs /\
    sw_total_breakouts (sweep_row t evs)
      = length (with_status completed evs) /\
    sw_wins (sweep_row t evs) = cs_wins cs /\
    sw_win_rate (sweep_row t evs) = cs_win_rate cs /\
    sw_avg_return (sweep_row t evs) = cs_avg_future_return cs /\
    sw_min_return (sweep_row t evs) = cs_min cs /\
    sw_max_return (sweep_row t evs) = cs_max cs /\
    sw_std_sq (sweep_row t evs) = cs_std_sq cs.
Proof.
  intros Hne Hnone. unfold completed_stats, sweep_row.
  rewrite (all_completed evs Hnone).
  destruct evs as [|e0 evs0]; [congruence|].
  change (0 <? length (e0 :: evs0))%nat with true. cbv iota.
  eexists. split; [reflexivity|]. repeat split; reflexivity.
Qed.

Lemma sweep_row_agrees_without_pending_witness :
  with_status pending Cases.settled_events = [] /\
  exists cs,
    completed_stats Cases.settled_events = Some cs /\
    sw_win_rate (sweep_row 5 Cases.settled_events) = cs_win_rate cs.
Proof.
  assert (Hne : Cases.settled_events <> []) by discriminate.
  assert (Hnone : with_status pending Cases.settled_events = [])
    by reflexivity.
  destruct (sweep_row_agrees_without_pending 5 Cases.settled_events Hne Hnone)
    as (cs & Hcs & _ & _ & Hrate & _).
  split; [exact Hnone|]. exists cs. split; [exact Hcs|exact Hrate].
Defined.

Lemma sweep_row_threshold t evs : sw_threshold_pct (sweep_row t evs) = t.
Proof. unfold sweep_row. destruct (0 <? length evs)%nat; reflexivity. Qed.

Lemma sweep_row_total t evs : sw_total_breakouts (sweep_row t evs) = length evs.
Proof.
  unfold sweep_row. destruct evs; reflexivity.
Qed.

Lemma individual_runs_rows (self : Analyzer) (ths : list Q) :
  forall rows,
    individual_runs self ths = Some rows ->
    Forall2 (fun t row =>
               exists evs s,
                 identify_breakouts t 2 126 self = Some (evs, s) /\
                 row = sweep_row t evs) ths rows.
Proof.
  induction ths as [|t ths IH]; simpl; intros rows.
  - intros [= <-]. constructor.
  - destruct (identify_breakouts t 2 126 self) as [[evs s]|] eqn:Hrun; simpl;
      [|discriminate].
    destruct (individual_runs self ths) as [rest|]; simpl; [|discriminate].
    intros [= <-]. constructor; [eauto|apply IH; reflexivity].
Qed.

Lemma sweep_table_rows (self : Analyzer) (ths : list Q) rows self' :
  generate_parameter_sweep_table ths self = Some (rows, self') ->
  individual_runs self ths = Some rows.
Proof.
  intros H. unfold generate_parameter_sweep_table in H.
  pose proof (sweep_loop_rows self ths [] self eq_refl) as Heq.
  rewrite H in Heq. simpl in Heq.
  destruct (individual_runs self ths); simpl in Heq; congruence.
Qed.

Lemma Forall2_nth {A B : Type} (P : A -> B -> Prop) (l1 : list A)
      (l2 : list B) :
  Forall2 P l1 l2 ->
  forall i b, nth_error l2 i = Some b ->
              exists a, nth_error l1 i = Some a /\ P a b.
Proof.
  induction 1 as [|a b l1 l2 Hab Hrest IH]; intros i b0 Hi.
  - destruct i; discriminate.
  - destruct i as [|i]; simpl in *.
    + injection Hi as <-. eauto.
    + apply IH. exact Hi.
Qed.

(** The table has one row per threshold, in the order given, each bearing
    its threshold; and of two rows the one with the higher threshold never
    counts more breakouts. *)
Theorem sweep_rows_follow_thresholds ths self rows self' :
  generate_parameter_sweep_table ths self = Some (rows, self') ->
  map sw_threshold_pct rows = ths /\
  forall i j ri rj,
    nth_error rows i = Some ri -> nth_error rows j = Some rj ->
    sw_threshold_pct ri <= sw_threshold_pct rj ->
    (sw_total_breakouts rj <= sw_total_breakouts ri)%nat.
Proof.
  intros Hsweep.
  pose proof (individual_runs_rows self ths rows
                (sweep_table_rows _ _ _ _ Hsweep)) as Hrows.
  split.
  - clear Hsweep. induction Hrows as [|t row ths rows Hrow _ IH];
      [reflexivity|].
    destruct Hrow as (evs & s & _ & ->).
    simpl. rewrite sweep_row_threshold, IH. reflexivity.
  - intros i j ri rj Hi Hj Hle.
    destruct (Forall2_nth _ _ _ Hrows i ri Hi)
      as (ti & _ & evsi & si & Hruni & ->).
    destruct (Forall2_nth _ _ _ Hrows j rj Hj)
      as (tj & _ & evsj & sj & Hrunj & ->).
    rewrite !sweep_row_threshold in Hle. rewrite !sweep_row_total.
    pose proof (identify_breakouts_raise ti tj 2 126 self evsi si Hle Hruni)
      as Hraise.
    simpl in Hraise. rewrite Hrunj in Hraise. injection Hraise as -> _.
    apply filter_length_le.
Qed.

Lemma sweep_rows_follow_thresholds_witness :
  exists rows self',
    generate_parameter_sweep_table [5; 7] Sample.analyzer
      = Some (rows, self') /\
    map sw_threshold_pct rows = [5; 7] /\
    map sw_total_breakouts rows = [1; 0]%nat.
Proof.
  destruct (generate_parameter_sweep_table [5; 7] Sample.analyzer)
    as [[rows self']|] eqn:E; [|vm_compute in E; discriminate E].
  destruct (sweep_rows_follow_thresholds _ _ _ _ E) as (Hths & _).
  exists rows, self'. split; [reflexivity|]. split; [exact Hths|].
  vm_compute in E. injection E as <- _. reflexivity.
Defined.

(** ** The example sweep *)

Lemma example_5_line_columns t evs :
  example_5_line t evs = printed_columns (sweep_row t evs).
Proof.
  unfold example_5_line, printed_columns, sweep_row.
  destruct (0 <? length evs)%nat; reflexivity.
Qed.

Lemma example_5_loop_columns (ths : list Q) :
  forall printed acc s,
    printed = map printed_columns acc ->
    option_map fst (example_5_loop ths printed s)
    = option_map (fun r => map printed_columns (fst r)) (sweep_loop ths acc s).
Proof.
  induction ths as [|t ths IH]; intros printed acc s ->; simpl.
  - reflexivity.
  - unfold mbind.
    destruct (identify_breakouts t 2 126 s) as [[evs s']|]; simpl;
      [|reflexivity].
    apply IH. rewrite map_app, example_5_line_columns. reflexivity.
Qed.

(** The lines that [example_5_parameter_sweep] prints are the threshold,
    breakout count, win rate and average return columns of the table that
    [generate_parameter_sweep_table] builds for its default thresholds on
    the same analyzer; the one raises when the other does. *)
Theorem example_sweep_prints_the_table self :
  option_map fst (example_5_parameter_sweep self)
  = option_map (fun r => map printed_columns (fst r))
               (generate_parameter_sweep_table [3; 4; 5; 6; 7] self).
Proof.
  apply example_5_loop_columns. reflexivity.
Qed.

(** ** Summary and title *)

(** The chart title and the printed summary agree: when the summary
    reports figures for the completed events, the title shows the same
    number of wins and the same win rate, over the same number of
    completed events. *)
Theorem title_agrees_with_summary df evs cs :
  completed_stats evs = Some cs ->
  exists st,
    plot_breakouts_stats (mkAnalyzer df (Some evs)) = Some st /\
    win_count st = cs_wins cs /\
    win_rate st = cs_win_rate cs /\
    completed_count st = length (with_status completed evs).
Proof.
  unfold completed_stats, plot_breakouts_stats. simpl.
  destruct (Nat.ltb_spec 0 (length (with_status completed evs))) as [Hpos|Hz];
    [|discriminate].
  intros [= <-].
  assert (Hne : (length evs =? 0)%nat = false).
  { apply Nat.eqb_neq. pose proof (with_status_split evs). lia. }
  rewrite Hne. eexists. split; [reflexivity|]. simpl. auto.
Qed.

Lemma title_agrees_with_summary_witness :
  exists cs st,
    completed_stats Sample.long_events = Some cs /\
    plot_breakouts_stats Sample.long_after = Some st /\
    win_count st = cs_wins cs /\ win_rate st = cs_win_rate cs.
Proof.
  destruct (completed_stats Sample.long_events) as [cs|] eqn:E;
    [|vm_compute in E; discriminate E].
  destruct (title_agrees_with_summary (data Sample.long_after)
              Sample.long_events cs E) as (st & Hst & Hw & Hr & _).
  exists cs, st. split; [reflexivity|]. split; [exact Hst|].
  split; [exact Hw|exact Hr].
Defined.

(** ** The hold-period prices of an event *)

Lemma hold_window_cons (bs : list Bar) (i h : nat) (bar : Bar) :
  nth_error bs i = Some bar ->
  hold_window bs i (seq 0 (h + 1))
  = (date bar, Close bar) :: hold_window bs i (seq 1 h).
Proof.
  intros Hb. rewrite Nat.add_1_r. simpl. rewrite Nat.add_0_r, Hb.
  reflexivity.
Qed.

Lemma hold_window_held (bs : list Bar) (i : nat) (p : Q) (js : list nat) :
  forallb (fun j => closes_at_or_above bs p (i + j)) js = true ->
  length (hold_window bs i js) = length js /\
  Forall (fun dp => p <= snd dp) (hold_window bs i js).
Proof.
  induction js as [|j js IH]; simpl; [auto|].
  rewrite andb_true_iff. intros (Hj & Hjs).
  destruct (IH Hjs) as (IHlen & IHall).
  unfold closes_at_or_above in Hj.
  destruct (nth_error bs (i + j)) as [b|]; [|discriminate].
  simpl. split; [f_equal; exact IHlen|].
  constructor; [apply Qle_bool_iff; exact Hj|exact IHall].
Qed.

(** The hold-period prices of a reported event start with the breakout
    day itself, and the [hold_days] prices after it are all at or above
    the breakout price: the line drawn on the chart never dips below the
    breakout level. *)
Theorem hold_period_stays_above thr h f self evs self' e :
  identify_breakouts thr h f self = Some (evs, self') ->
  In e evs ->
  exists close later,
    hold_period_data e = (breakout_date e, close) :: later /\
    length later = h /\
    Forall (fun dp => breakout_price e <= snd dp) later.
Proof.
  intros Hrun He.
  apply (identify_breakouts_In _ _ _ _ _ _ Hrun) in He.
  destruct He as (i & bar & r & Hb & _ & _ & _ & Hheld & ->).
  rewrite event_at_hold, event_at_date, event_at_price.
  rewrite (hold_window_cons _ _ _ _ Hb).
  destruct (hold_window_held _ _ _ _ Hheld) as (Hlen & Hall).
  eexists _, _. split; [reflexivity|].
  rewrite length_seq in Hlen. auto.
Qed.

Lemma hold_period_stays_above_witness :
  identify_breakouts 5 2 1 Sample.analyzer
    = Some (Sample.events, Sample.after) /\
  exists close later,
    hold_period_data Sample.event = (breakout_date Sample.event, close) :: later /\
    length later = 2%nat /\
    Forall (fun dp => breakout_price Sample.event <= snd dp) later.
Proof.
  assert (Hrun : identify_breakouts 5 2 1 Sample.analyzer
                 = Some (Sample.events, Sample.after)) by reflexivity.
  split; [exact Hrun|].
  exact (hold_period_stays_above 5 2 1 Sample.analyzer _ _ Sample.event Hrun
           (or_introl eq_refl)).
Defined.

(** ** Short series *)

(** A series of fewer than two days has no breakout: detection returns
    the empty collection for every choice of parameters, and every row of
    the sweep is the all-zero row. *)
Theorem short_series_has_no_breakouts thr h f self :
  (length (rows (data self)) <= 1)%nat ->
  identify_breakouts thr h f self
  = Some ([], mkAnalyzer (set_Daily_Return (data self)) (Some [])) /\
  forall ths,
    option_map fst (generate_parameter_sweep_table ths self)
    = Some (map (fun t => mkSweepRow t 0 0 0 (Some 0) (Some 0) (Some 0)
                                     (Some 0) (Some 0)) ths).
Proof.
  intros Hshort.
  assert (Hnone : forall t h' f',
             identify_breakouts t h' f' self
             = Some ([], mkAnalyzer (set_Daily_Return (data self)) (Some []))).
  { intros t h' f'. apply no_event_returned. intros i bar r Hb Hr _.
    exfalso.
    assert (Hi : (i < length (rows (data self)))%nat)
      by (apply nth_error_Some; congruence).
    assert (i = 0%nat) as -> by lia.
    exact (daily_returns_first _ _ Hr). }
  split; [apply Hnone|].
  intros ths. unfold generate_parameter_sweep_table.
  rewrite (sweep_loop_rows self ths [] self eq_refl).
  assert (Hruns : individual_runs self ths
                  = Some (map (fun t => mkSweepRow t 0 0 0 (Some 0) (Some 0)
                                                   (Some 0) (Some 0) (Some 0))
                              ths)).
  { induction ths as [|t ths IH]; simpl; [reflexivity|].
    rewrite Hnone. simpl. rewrite IH. reflexivity. }
  rewrite Hruns. reflexivity.
Qed.

Lemma short_series_has_no_breakouts_witness :
  identify_breakouts 5 2 126 (mkAnalyzer (mkFrame [] None) None)
  = Some ([], mkAnalyzer (mkFrame [] (Some [])) (Some [])) /\
  option_map fst (generate_parameter_sweep_table [5]
                    (mkAnalyzer (mkFrame [Sample.flat 0 100] None) None))
  = Some [mkSweepRow 5 0 0 0 (Some 0) (Some 0) (Some 0) (Some 0) (Some 0)].
Proof.
  split.
  - apply (short_series_has_no_breakouts 5 2 126
             (mkAnalyzer (mkFrame [] None) None)). simpl. lia.
  - apply (proj2 (short_series_has_no_breakouts 5 2 126
                    (mkAnalyzer (mkFrame [Sample.flat 0 100] None) None)
                    (le_n 1)) [5]).
Defined.

(** ** A longer horizon *)

Lemma with_status_flat_map {A : Type} (s : Status)
      (k : A -> list BreakoutEvent) (l : list A) :
  with_status s (flat_map k l) = flat_map (fun c => with_status s (k c)) l.
Proof.
  unfold with_status. induction l as [|c l IH]; simpl; [reflexivity|].
  rewrite filter_app, IH. reflexivity.
Qed.

(** Lengthening the horizon never completes more events: with more future
    days the run returns as many events, of which no more are completed
    and no fewer are pending. *)
Theorem longer_horizon_completes_fewer thr h f1 f2 self evs1 self1 :
  (f1 <= f2)%nat ->
  identify_breakouts thr h f1 self = Some (evs1, self1) ->
  exists evs2 self2,
    identify_breakouts thr h f2 self = Some (evs2, self2) /\
    length evs2 = length evs1 /\
    (length (with_status completed evs2)
     <= length (with_status completed evs1))%nat /\
    (length (with_status pending evs1)
     <= length (with_status pending evs2))%nat.
Proof.
  intros Hf Hrun.
  destruct (identify_breakouts_events _ _ _ _ _ _ Hrun) as (Hevs & Hfound).
  destruct (identify_breakouts_found thr h f2 self) as (evs2 & Hrun2).
  { intros c Hc. destruct (Hfound c Hc) as (i & Hloc & _). eauto. }
  destruct (identify_breakouts_events _ _ _ _ _ _ Hrun2) as (Hevs2 & _).
  exists evs2, (mkAnalyzer (set_Daily_Return (data self)) (Some evs2)).
  split; [exact Hrun2|].
  assert (Hlen : length evs2 = length evs1).
  { rewrite <- (length_map detection_part evs2),
            <- (length_map detection_part evs1).
    f_equal. rewrite Hevs, Hevs2. apply map_flat_map_pointwise.
    intros (bar & r) Hc. destruct (Hfound _ Hc) as (i & Hloc & _).
    simpl in Hloc.
    rewrite (appended_at h f1 (set_Daily_Return (data self)) bar r i Hloc),
            (appended_at h f2 (set_Daily_Return (data self)) bar r i Hloc).
    simpl. destruct (held (rows (data self)) i h (Low bar)); [|reflexivity].
    simpl. f_equal. apply event_at_detection. }
  assert (Hdone : (length (with_status completed evs2)
                   <= length (with_status completed evs1))%nat).
  { rewrite Hevs, Hevs2, !with_status_flat_map. apply flat_map_length_le.
    intros (bar & r) Hc. destruct (Hfound _ Hc) as (i & Hloc & _).
    simpl in Hloc.
    rewrite (appended_at h f1 (set_Daily_Return (data self)) bar r i Hloc),
            (appended_at h f2 (set_Daily_Return (data self)) bar r i Hloc).
    simpl. destruct (held (rows (data self)) i h (Low bar)); [|simpl; lia].
    unfold event_at.
    destruct (nth_error (rows (data self)) (i + f2)) as [b2|] eqn:E2;
      [|destruct (nth_error (rows (data self)) (i + f1)); simpl; lia].
    assert (Hin : (i + f1 < length (rows (data self)))%nat).
    { assert (i + f2 < length (rows (data self)))%nat
        by (apply nth_error_Some; congruence).
      lia. }
    apply nth_error_Some in Hin.
    destruct (nth_error (rows (data self)) (i + f1)); [|congruence].
    simpl. lia. }
  split; [exact Hlen|]. split; [exact Hdone|].
  pose proof (with_status_split evs1). pose proof (with_status_split evs2).
  lia.
Qed.

Lemma longer_horizon_completes_fewer_witness :
  identify_breakouts 5 2 1 Sample.analyzer
    = Some (Sample.events, Sample.after) /\
  length (with_status completed Sample.events) = 1%nat /\
  length (with_status completed Sample.events4) = 0%nat /\
  (length (with_status pending Sample.events)
   <= length (with_status pending Sample.events4))%nat.
Proof.
  assert (Hrun : identify_breakouts 5 2 1 Sample.analyzer
                 = Some (Sample.events, Sample.after)) by reflexivity.
  assert (Hf : (1 <= 4)%nat) by lia.
  destruct (longer_horizon_completes_fewer 5 2 1 4 Sample.analyzer _ _ Hf Hrun)
    as (evs2 & self2 & Hrun2 & _ & _ & Hpend).
  assert (Hrun4 : identify_breakouts 5 2 4 Sample.analyzer
                  = Some (Sample.events4, Sample.after4)) by reflexivity.
  rewrite Hrun4 in Hrun2. injection Hrun2 as <- <-.
  split; [exact Hrun|]. split; [reflexivity|]. split; [reflexivity|].
  exact Hpend.
Defined.

(** ** What the sweep leaves behind *)

Lemma sweep_loop_last (self : Analyzer) (ths : list Q) (t : Q) :
  forall acc s table s',
    rows (data s) = rows (data self) ->
    sweep_loop (ths ++ [t]) acc s = Some (table, s') ->
    exists evs, identify_breakouts t 2 126 self = Some (evs, s').
Proof.
  induction ths as [|t0 ths IH]; intros acc s rows0 s' Hs; simpl; unfold mbind.
  - rewrite (identify_breakouts_rows t 2 126 s self Hs).
    destruct (identify_breakouts t 2 126 self) as [[evs s1]|]; simpl;
      [|discriminate].
    unfold mret. intros [= _ <-]. eauto.
  - rewrite (identify_breakouts_rows t0 2 126 s self Hs).
    destruct (identify_breakouts t0 2 126 self) as [[evs s1]|] eqn:Hrun; simpl;
      [|discriminate].
    apply IH. exact (identify_breakouts_keeps_rows _ _ _ _ _ _ Hrun).
Qed.

(** The sweep overwrites the events stored in the analyzer: after a sweep
    the analyzer is as a single detection run with the last threshold of
    the list (two hold days, 126 future days) leaves it, whatever it held
    before; and the table does not depend on what it held before. *)
Theorem sweep_leaves_last_run ths t self table self' :
  generate_parameter_sweep_table (ths ++ [t]) self = Some (table, self') ->
  (exists evs,
      identify_breakouts t 2 126 self = Some (evs, self') /\
      breakouts self' = Some evs) /\
  forall other,
    rows (data other) = rows (data self) ->
    generate_parameter_sweep_table (ths ++ [t]) other = Some (table, self').
Proof.
  intros Hsweep. unfold generate_parameter_sweep_table in *. split.
  - destruct (sweep_loop_last self ths t [] self table self' eq_refl Hsweep)
      as (evs & Hrun).
    exists evs. split; [exact Hrun|].
    rewrite (identify_breakouts_state _ _ _ _ _ _ Hrun). reflexivity.
  - intros other Hother.
    destruct (sweep_loop (ths ++ [t]) [] other) as [[rows2 s2]|] eqn:E.
    + destruct (sweep_loop_last self ths t [] other rows2 s2 Hother E)
        as (evs2 & Hrun2).
      destruct (sweep_loop_last self ths t [] self table self' eq_refl Hsweep)
        as (evs & Hrun).
      pose proof (sweep_loop_rows self (ths ++ [t]) [] other Hother) as H2.
      pose proof (sweep_loop_rows self (ths ++ [t]) [] self eq_refl) as H1.
      rewrite E in H2. rewrite Hsweep in H1. simpl in H1, H2.
      congruence.
    + pose proof (sweep_loop_rows self (ths ++ [t]) [] other Hother) as H2.
      pose proof (sweep_loop_rows self (ths ++ [t]) [] self eq_refl) as H1.
      rewrite E in H2. rewrite Hsweep in H1. simpl in H1, H2.
      congruence.
Qed.

Lemma sweep_leaves_last_run_witness :
  exists row5 row7 self',
    generate_parameter_sweep_table ([5] ++ [7]) Sample.after
      = Some ([row5; row7], self') /\
    breakouts Sample.after = Some Sample.events /\
    breakouts self' = Some [].
Proof.
  destruct (generate_parameter_sweep_table ([5] ++ [7]) Sample.after)
    as [[table self']|] eqn:E; [|vm_compute in E; discriminate E].
  destruct (sweep_leaves_last_run [5] 7 Sample.after table self' E)
    as ((evs & Hrun & Hstored) & _).
  assert (Hrun7 : identify_breakouts 7 2 126 Sample.after
                  = Some ([], mkAnalyzer (data Sample.after) (Some [])))
    by reflexivity.
  rewrite Hrun7 in Hrun. injection Hrun as Hevs Hself.
  assert (Hrows : exists row5 row7, table = [row5; row7]).
  { vm_compute in E. injection E as Htable _. rewrite <- Htable. eauto. }
  destruct Hrows as (row5 & row7 & ->).
  exists row5, row7, self'.
  split; [reflexivity|]. split; [reflexivity|].
  rewrite Hstored, <- Hevs. reflexivity.
Defined.
